(** * GeoJSONLayer: the binding between a declarative property set and the
      imperative map API (src/geojson-layer.ts)

    The component owns one GeoJSON source and five derived layers on an
    externally owned map.  Each lifecycle hook is embedded as a computation
    in a state-and-exception monad whose state holds the component instance
    ([this]), the map found in the React context and the log of the commands
    issued against the map so far. *)

From stdpp Require Import base option list strings gmap fin_maps.
From Stdlib Require Import ZArith Ascii String Lia.

Local Open Scope string_scope.
Local Open Scope list_scope.

(** ** Property names: [types], [toCamelCase], [eventToHandler] *)

Definition types : list string :=
  ["symbol"; "line"; "fill"; "fill-extrusion"; "circle"].

Definition code (c : ascii) : nat := nat_of_ascii c.

Definition is_upper (c : ascii) : bool := (65 <=? code c)%nat && (code c <=? 90)%nat.
Definition is_lower (c : ascii) : bool := (97 <=? code c)%nat && (code c <=? 122)%nat.
Definition is_digit (c : ascii) : bool := (48 <=? code c)%nat && (code c <=? 57)%nat.

(** [\w] of the regular expressions. *)
Definition is_word (c : ascii) : bool :=
  is_upper c || is_lower c || is_digit c || (code c =? 95)%nat.

(** [\s] on one-byte characters: tab, line feed, vertical tab, form feed,
    carriage return, space. *)
Definition is_space (c : ascii) : bool :=
  ((9 <=? code c)%nat && (code c <=? 13)%nat) || (code c =? 32)%nat.

Definition toLowerCase (c : ascii) : ascii :=
  if is_upper c then ascii_of_nat (code c + 32) else c.
Definition toUpperCase (c : ascii) : ascii :=
  if is_lower c then ascii_of_nat (code c - 32) else c.

(** First [replace] of [toCamelCase]: the pattern [(?:^\w|[A-Z]|\b\w)] matches
    one character at a time: an upper-case letter anywhere, or a word
    character that starts the string or follows a non-word character.  The
    callback lower-cases the match at index 0 and upper-cases any other.
    [prev] is the character before the current one ([None] at index 0). *)
Fixpoint replaceLetters (prev : option ascii) (str : string) : string :=
  match str with
  | EmptyString => EmptyString
  | String c rest =>
      let boundary := match prev with None => true | Some p => negb (is_word p) end in
      let matched := is_upper c || (is_word c && boundary) in
      let letter :=
        if matched
        then match prev with None => toLowerCase c | Some _ => toUpperCase c end
        else c in
      String letter (replaceLetters (Some c) rest)
  end.

(** Second [replace]: the pattern [[\s+]|-] deletes white space, plus signs
    and hyphens. *)
Fixpoint removeSeparators (str : string) : string :=
  match str with
  | EmptyString => EmptyString
  | String c rest =>
      if is_space c || (code c =? 43)%nat || (code c =? 45)%nat
      then removeSeparators rest
      else String c (removeSeparators rest)
  end.

Definition toCamelCase (str : string) : string :=
  removeSeparators (replaceLetters None str).

(** [eventToHandler], in the order [Object.keys] enumerates it. *)
Definition eventToHandler : list (string * string) :=
  [ ("mousemove", "OnMouseMove");
    ("mouseenter", "OnMouseEnter");
    ("mouseleave", "OnMouseLeave");
    ("mousedown", "OnMouseDown");
    ("mouseup", "OnMouseUp");
    ("click", "OnClick") ].

(** ** Values *)

#[local] Set Warnings "-register-all".

(** Style values (paint and layout entries, filter elements): scalars and
    arrays.  [isEqual] of the deep-equal package is read as equality of these
    values. *)
Inductive value : Type :=
  | VNull
  | VBool (b : bool)
  | VNum (n : Z)
  | VStr (s : string)
  | VArr (vs : list value).

Fixpoint value_dec (x y : value) {struct x} : Decision (x = y).
Proof.
  unfold Decision.
  decide equality.
  - apply Bool.bool_dec.
  - apply Z.eq_dec.
  - apply String.string_dec.
  - apply (List.list_eq_dec value_dec).
Defined.
Global Instance value_eq_dec : EqDecision value := value_dec.

(** A style object maps property names to values. *)
Abbreviation obj := (gmap string value).

(** [isEqual] on possibly absent operands ([undefined] is [None]). *)
Definition isEqual {A} `{EqDecision A} (x y : option A) : bool :=
  bool_decide (x = y).

(** ** Properties of the component *)

(** [data] is compared with [!==], that is by reference: a payload is known
    by the reference of the object it lives in. *)
Inductive SourceOptionData : Type := DataRef (r : nat).

(** A mouse-event handler is a function, also only compared by reference. *)
Inductive MouseEvent : Type := HandlerRef (r : nat).

Global Instance SourceOptionData_eq_dec : EqDecision SourceOptionData.
Proof. solve_decision. Defined.
Global Instance MouseEvent_eq_dec : EqDecision MouseEvent.
Proof. solve_decision. Defined.

(** [layerOptions] has the shape of a layer descriptor with every key
    optional.  The keys that [createLayer] also sets itself are kept apart,
    because the object spread [...layerOptions] comes last and overrides them;
    [lo_rest] holds the others (minzoom, maxzoom, metadata, ...). *)
Record LayerOptions : Type := {
  lo_id : option string;
  lo_source : option string;
  lo_type : option string;
  lo_paint : option obj;
  lo_layout : option obj;
  lo_filter : option (list value);
  lo_rest : obj
}.

(** The props object.  The per-type entries ([linePaint], [circleLayout],
    [fillOnClick], ...) are only ever read through a computed name
    [this.props[toCamelCase(type) + suffix]], so they are kept as the maps
    from those names: [paints] for the [...Paint] entries, [layouts] for the
    [...Layout] entries, [handlers] for the [...On<Event>] entries. *)
Record Props : Type := {
  id_prop : option string;
  data : SourceOptionData;
  layerOptions : option LayerOptions;
  sourceOptions : option obj;
  before : option string;
  paints : gmap string obj;
  layouts : gmap string obj;
  handlers : gmap string MouseEvent
}.

(** ** The external map *)

(** A source descriptor: [{type: 'geojson', ...sourceOptions, data}]. *)
Record Sources : Type := {
  source_fields : obj;
  source_data : SourceOptionData
}.

(** A layer descriptor, as handed to [addLayer]. *)
Record Layer : Type := {
  layer_id : string;
  layer_source : string;
  layer_type : string;
  layer_paint : obj;
  layer_layout : obj;
  layer_filter : option (list value);
  layer_rest : obj
}.

(** The map widget is an external collaborator.  The binding observes it only
    through [getStyle], [getSource] and [getLayer], so the map is abstracted
    to what these three read: whether a style is loaded, and the sources and
    layers registered by id.  The stacking order of the layers and the event
    listeners are not tracked. *)
Record MapboxMap : Type := {
  has_style : bool;
  map_sources : gmap string Sources;
  map_layers : gmap string Layer
}.

(** The commands the binding issues, against the map (all but the last) and
    against the framework ([ForceUpdate]), in the order of the log. *)
Inductive call : Type :=
  | AddSource (id : string) (s : Sources)
  | RemoveSource (id : string)
  | SetData (id : string) (d : SourceOptionData)
  | AddLayer (l : Layer) (before : option string)
  | RemoveLayer (id : string)
  | SetFilter (id : string) (f : list value)
  | SetPaintProperty (id key : string) (v : value)
  | SetLayoutProperty (id key : string) (v : value)
  | MoveLayer (id : string) (before : option string)
  | On (event layerId : string) (h : MouseEvent)
  | Off (event layerId : string) (h : MouseEvent)
  | OnStyleData
  | OffStyleData
  | ForceUpdate.

Global Instance Sources_eq_dec : EqDecision Sources.
Proof. solve_decision. Defined.
Global Instance Layer_eq_dec : EqDecision Layer.
Proof. solve_decision. Defined.
Global Instance call_eq_dec : EqDecision call.
Proof. solve_decision. Defined.

Definition set_paint (key : string) (v : value) (l : Layer) : Layer :=
  {| layer_id := layer_id l; layer_source := layer_source l;
     layer_type := layer_type l; layer_paint := <[key := v]> (layer_paint l);
     layer_layout := layer_layout l; layer_filter := layer_filter l;
     layer_rest := layer_rest l |}.

Definition set_layout (key : string) (v : value) (l : Layer) : Layer :=
  {| layer_id := layer_id l; layer_source := layer_source l;
     layer_type := layer_type l; layer_paint := layer_paint l;
     layer_layout := <[key := v]> (layer_layout l); layer_filter := layer_filter l;
     layer_rest := layer_rest l |}.

Definition set_filter (f : list value) (l : Layer) : Layer :=
  {| layer_id := layer_id l; layer_source := layer_source l;
     layer_type := layer_type l; layer_paint := layer_paint l;
     layer_layout := layer_layout l; layer_filter := Some f;
     layer_rest := layer_rest l |}.

Definition set_data (d : SourceOptionData) (s : Sources) : Sources :=
  {| source_fields := source_fields s; source_data := d |}.

Definition with_sources (f : gmap string Sources → gmap string Sources)
    (m : MapboxMap) : MapboxMap :=
  {| has_style := has_style m; map_sources := f (map_sources m);
     map_layers := map_layers m |}.

Definition with_layers (f : gmap string Layer → gmap string Layer)
    (m : MapboxMap) : MapboxMap :=
  {| has_style := has_style m; map_sources := map_sources m;
     map_layers := f (map_layers m) |}.

(** What a command does to the registered sources and layers.  A layer is
    registered under the id of its descriptor; adding a layer whose id is
    taken leaves the map as it is (the widget refuses it).  Listener
    subscriptions and layer moves do not change what is registered. *)
Definition apply_call (c : call) (m : MapboxMap) : MapboxMap :=
  match c with
  | AddSource id s => with_sources (insert id s) m
  | RemoveSource id => with_sources (delete id) m
  | SetData id d => with_sources (alter (set_data d) id) m
  | AddLayer l _ =>
      match map_layers m !! layer_id l with
      | Some _ => m
      | None => with_layers (insert (layer_id l) l) m
      end
  | RemoveLayer id => with_layers (delete id) m
  | SetFilter id f => with_layers (alter (set_filter f) id) m
  | SetPaintProperty id key v => with_layers (alter (set_paint key v) id) m
  | SetLayoutProperty id key v => with_layers (alter (set_layout key v) id) m
  | MoveLayer _ _ | On _ _ _ | Off _ _ _ | OnStyleData | OffStyleData
  | ForceUpdate => m
  end.

Definition getSource (m : MapboxMap) (id : string) : option Sources :=
  map_sources m !! id.
Definition getLayer (m : MapboxMap) (id : string) : option Layer :=
  map_layers m !! id.
Definition getStyle (m : MapboxMap) : bool := has_style m.

(** ** The component instance and the monad of its methods *)

Record GeoJSONLayer : Type := {
  props : Props;
  id : string;
  source : Sources;
  layerIds : list string
}.

(** [context_map] is [this.context.map], [None] when the context carries no
    map; [calls] is the log, oldest command first. *)
Record state : Type := {
  this : GeoJSONLayer;
  context_map : option MapboxMap;
  calls : list call
}.

(** The one exception the methods can raise by themselves: a member access
    on [undefined]. *)
Inductive exn : Type := TypeError.

Inductive outcome (A : Type) : Type :=
  | Ret (a : A)
  | Throw (e : exn).
Arguments Ret {A} a.
Arguments Throw {A} e.

(** Effects made before an exception stay: the state comes back either way. *)
Definition M (A : Type) : Type := state → outcome A * state.

Global Instance M_ret : MRet M := λ A a s, (Ret a, s).
Global Instance M_bind : MBind M :=
  λ A B f m s, match m s with
               | (Ret a, s') => f a s'
               | (Throw e, s') => (Throw e, s')
               end.

Definition throw {A} (e : exn) : M A := λ s, (Throw e, s).

(** [list.forEach(f)]. *)
Fixpoint forEach {A} (l : list A) (f : A → M unit) : M unit :=
  match l with
  | [] => mret tt
  | x :: l' => f x;; forEach l' f
  end.

Definition when (b : bool) (m : M unit) : M unit := if b then m else mret tt.

Definition get_this : M GeoJSONLayer := λ s, (Ret (this s), s).
Definition get_map : M (option MapboxMap) := λ s, (Ret (context_map s), s).

(** A method call on the map of the context: a [TypeError] when there is no
    map, else the command is logged and takes effect. *)
Definition map_call (c : call) : M unit :=
  λ s, match context_map s with
       | None => (Throw TypeError, s)
       | Some m =>
           (Ret tt, {| this := this s; context_map := Some (apply_call c m);
                       calls := calls s ++ [c] |})
       end.

(** A read of the map of the context, with the same [TypeError]. *)
Definition map_read {A} (f : MapboxMap → A) : M A :=
  λ s, match context_map s with
       | None => (Throw TypeError, s)
       | Some m => (Ret (f m), s)
       end.

(** [this.forceUpdate()] goes to the framework, not to the map. *)
Definition forceUpdate : M unit :=
  λ s, (Ret tt, {| this := this s; context_map := context_map s;
                   calls := calls s ++ [ForceUpdate] |}).

Definition set_source (src : Sources) : M unit :=
  λ s, (Ret tt, {| this := {| props := props (this s); id := id (this s);
                              source := src; layerIds := layerIds (this s) |};
                   context_map := context_map s; calls := calls s |}).

Definition push_layerId (layerId : string) : M unit :=
  λ s, (Ret tt, {| this := {| props := props (this s); id := id (this s);
                              source := source (this s);
                              layerIds := layerIds (this s) ++ [layerId] |};
                   context_map := context_map s; calls := calls s |}).

(** The framework stores the next props once the hook has returned. *)
Definition set_props (p : Props) : M unit :=
  λ s, (Ret tt, {| this := {| props := p; id := id (this s);
                              source := source (this s);
                              layerIds := layerIds (this s) |};
                   context_map := context_map s; calls := calls s |}).

(** ** The shallow diff *)

(** Modelled from the spec: [diff] of ./util/diff, which is not among the
    sources.  The spec has it compute a mapping containing every key whose
    value changed between old and new (keys added or changed): the entries
    of [obj2] that [obj1] does not already hold. *)
Definition diff (obj1 obj2 : obj) : obj :=
  filter (λ kv, obj1 !! kv.1 ≠ Some kv.2) obj2.

(** ** The methods of the component *)

(** [{type: 'geojson', ...sourceOptions, data}]: the options override the
    type tag, [data] overrides the options. *)
Definition sourceDescriptor (sourceOptions : option obj) (d : SourceOptionData)
    : Sources :=
  {| source_fields :=
       delete "data" (default ∅ sourceOptions ∪ {[ "type" := VStr "geojson" ]});
     source_data := d |}.

(** The field initialisers.  [uid] is what [generateID()] of ./util/uid
    returns; an empty [id] prop is falsy and gives way to the generated id. *)
Definition new_GeoJSONLayer (p : Props) (uid : string) : GeoJSONLayer :=
  {| props := p;
     id := match id_prop p with
           | Some i => if bool_decide (i = "") then "geojson-" +:+ uid else i
           | None => "geojson-" +:+ uid
           end;
     source := sourceDescriptor (sourceOptions p) (data p);
     layerIds := [] |}.

Definition buildLayerId (t : GeoJSONLayer) (type : string) : string :=
  id t +:+ "-" +:+ type.

(** [{id, source, type, paint, layout, ...layerOptions}]: every key that
    [layerOptions] carries replaces the one written before it. *)
Definition spread (l : Layer) (layerOptions : option LayerOptions) : Layer :=
  match layerOptions with
  | None => l
  | Some o =>
      {| layer_id := default (layer_id l) (lo_id o);
         layer_source := default (layer_source l) (lo_source o);
         layer_type := default (layer_type l) (lo_type o);
         layer_paint := default (layer_paint l) (lo_paint o);
         layer_layout := default (layer_layout l) (lo_layout o);
         layer_filter := lo_filter o;
         layer_rest := lo_rest o |}
  end.

Section binding.

(** [diff] on an [undefined] operand: the spec is silent and the code is
    not at hand, so whatever it does there (return an object or raise) is
    left open. *)
Variable diff_undefined : option obj → option obj → outcome obj.

Definition diff_props (o1 o2 : option obj) : M obj :=
  match o1, o2 with
  | Some obj1, Some obj2 => mret (diff obj1 obj2)
  | _, _ => λ s, (diff_undefined o1 o2, s)
  end.

Definition mapLayerMouseHandlers (type : string) : M unit :=
  t ← get_this;
  let layerId := buildLayerId t type in
  forEach eventToHandler (λ '(event, suffix),
    let handler := handlers (props t) !! (toCamelCase type +:+ suffix) in
    match handler with
    | Some h => map_call (On event layerId h)
    | None => mret tt
    end).

Definition createLayer (type : string) : M unit :=
  t ← get_this;
  let before := before (props t) in
  let layerOptions := layerOptions (props t) in
  let layerId := buildLayerId t type in
  push_layerId layerId;;
  let paint := default ∅ (paints (props t) !! (toCamelCase type +:+ "Paint")) in
  let visibility := if bool_decide (size paint = 0) then "none" else "visible" in
  let layout :=
    default {[ "visibility" := VStr visibility ]}
            (layouts (props t) !! (toCamelCase type +:+ "Layout")) in
  map_call (AddLayer
              (spread {| layer_id := layerId; layer_source := id t;
                         layer_type := type; layer_paint := paint;
                         layer_layout := layout; layer_filter := None;
                         layer_rest := ∅ |}
                      layerOptions)
              before);;
  mapLayerMouseHandlers type.

Definition initialize : M unit :=
  t ← get_this;
  map_call (AddSource (id t) (source t));;
  createLayer "symbol";;
  createLayer "line";;
  createLayer "fill";;
  createLayer "fill-extrusion";;
  createLayer "circle".

Definition unbind : M unit :=
  t ← get_this;
  src ← map_read (λ m, getSource m (id t));
  when (bool_decide (is_Some src)) (map_call (RemoveSource (id t)));;
  forEach types (λ type,
    forEach eventToHandler (λ '(event, suffix),
      let prop := toCamelCase type +:+ suffix in
      match handlers (props t) !! prop with
      | Some h => map_call (Off event (buildLayerId t type) h)
      | None => mret tt
      end));;
  forEach (layerIds t) (λ lId,
    l ← map_read (λ m, getLayer m lId);
    when (bool_decide (is_Some l)) (map_call (RemoveLayer lId))).

Definition onStyleDataChange : M unit :=
  t ← get_this;
  src ← map_read (λ m, getSource m (id t));
  match src with
  | None => unbind;; initialize;; forceUpdate
  | Some _ => mret tt
  end.

Definition componentWillMount : M unit :=
  initialize;;
  map_call OnStyleData.

Definition componentWillUnmount : M unit :=
  map ← get_map;
  match map with
  | None => mret tt
  | Some m =>
      if negb (getStyle m) then mret tt
      else map_call OffStyleData;; unbind
  end.

(** The callback of [types.forEach] in [componentWillReceiveProps], with
    what it closes over: the instance [t] (for [this.props] and
    [buildLayerId]), the next props and [layerFilterChanged]. *)
Definition updateLayer (t : GeoJSONLayer) (next : Props)
    (layerFilterChanged : bool) (type : string) : M unit :=
  let cur := props t in
  let layerId := buildLayerId t type in
  match layerOptions next with
  | Some n =>
      when layerFilterChanged
        (map_call (SetFilter layerId (default [] (lo_filter n))))
  | None => mret tt
  end;;
  let paintProp := toCamelCase type +:+ "Paint" in
  when (negb (isEqual (paints next !! paintProp) (paints cur !! paintProp)))
    (paintDiff ← diff_props (paints cur !! paintProp) (paints next !! paintProp);
     forEach (map_to_list paintDiff) (λ '(key, v),
       map_call (SetPaintProperty layerId key v)));;
  let layoutProp := toCamelCase type +:+ "Layout" in
  when (negb (isEqual (layouts next !! layoutProp) (layouts cur !! layoutProp)))
    (layoutDiff ← diff_props (layouts cur !! layoutProp) (layouts next !! layoutProp);
     forEach (map_to_list layoutDiff) (λ '(key, v),
       map_call (SetLayoutProperty layerId key v)));;
  forEach eventToHandler (λ '(event, suffix),
    let prop := toCamelCase type +:+ suffix in
    when (bool_decide (handlers next !! prop ≠ handlers cur !! prop))
      (match handlers cur !! prop with
       | Some h => map_call (Off event layerId h)
       | None => mret tt
       end;;
       match handlers next !! prop with
       | Some h => map_call (On event layerId h)
       | None => mret tt
       end));;
  when (bool_decide (before cur ≠ before next))
    (map_call (MoveLayer layerId (before next))).

Definition componentWillReceiveProps (next : Props) : M unit :=
  t ← get_this;
  let cur := props t in
  when (bool_decide (data next ≠ data cur))
    (src ← map_read (λ m, getSource m (id t));
     match src with
     | None => throw TypeError
     | Some _ => map_call (SetData (id t) (data next))
     end;;
     set_source (sourceDescriptor (sourceOptions next) (data next)));;
  let layerFilterChanged :=
    match layerOptions next, layerOptions cur with
    | Some n, Some c => negb (isEqual (lo_filter n) (lo_filter c))
    | _, _ => false
    end in
  forEach types (updateLayer t next layerFilterChanged).

(** A property update as the framework runs it: the hook, then the new
    props become [this.props]. *)
Definition update (next : Props) : M unit :=
  componentWillReceiveProps next;;
  set_props next.

End binding.

(** ** Runs and logs *)

(** The commands of a log applied in order. *)
Definition apply_calls (cs : list call) (m : MapboxMap) : MapboxMap :=
  foldl (λ m c, apply_call c m) m cs.

(** The state after the layer ids [ids] have been pushed and the commands
    [cs] issued. *)
Definition evolve (s : state) (ids : list string) (cs : list call) : state :=
  {| this := {| props := props (this s); id := id (this s);
                source := source (this s);
                layerIds := layerIds (this s) ++ ids |};
     context_map := apply_calls cs <$> context_map s;
     calls := calls s ++ cs |}.

(** How often the command [c] occurs in a log. *)
Definition occurrences (c : call) (cs : list call) : nat :=
  List.length (filter (λ c', c' = c) cs).

(** Commands that register or unregister a source or a layer. *)
Definition structural (c : call) : bool :=
  match c with
  | AddSource _ _ | RemoveSource _ | AddLayer _ _ | RemoveLayer _ => true
  | _ => false
  end.

(** [s'] comes from [s] by issuing commands that all satisfy [P], with the
    identity of the binding ([id], [layerIds]) untouched. *)
Definition evolves (P : call → Prop) (s s' : state) : Prop :=
  id (this s') = id (this s) ∧
  layerIds (this s') = layerIds (this s) ∧
  ∃ cs, Forall P cs ∧ calls s' = calls s ++ cs ∧
        context_map s' = apply_calls cs <$> context_map s.

Definition preserves {A} (P : call → Prop) (m : M A) : Prop :=
  ∀ s, evolves P s (m s).2.

(** The layer ids that [unbind] removes, in order: each id of [ids] that is
    registered when its turn comes. *)
Fixpoint removed (layers : gmap string Layer) (ids : list string) : list string :=
  match ids with
  | [] => []
  | lId :: ids' =>
      match layers !! lId with
      | Some _ => lId :: removed (delete lId layers) ids'
      | None => removed layers ids'
      end
  end.

(** The unsubscriptions of [unbind]: one per declared handler, type by type
    and event by event. *)
Definition off_calls (t : GeoJSONLayer) : list call :=
  type ← types;
  '(event, suffix) ← eventToHandler;
  match handlers (props t) !! (toCamelCase type +:+ suffix) with
  | Some h => [Off event (buildLayerId t type) h]
  | None => []
  end.

(** The subscriptions of [mapLayerMouseHandlers]. *)
Definition on_calls (t : GeoJSONLayer) (type : string) : list call :=
  '(event, suffix) ← eventToHandler;
  match handlers (props t) !! (toCamelCase type +:+ suffix) with
  | Some h => [On event (buildLayerId t type) h]
  | None => []
  end.

(** The layout [createLayer] computes before [layerOptions] is spread over
    the descriptor. *)
Definition computed_layout (p : Props) (type : string) : obj :=
  match layouts p !! (toCamelCase type +:+ "Layout") with
  | Some layout => layout
  | None =>
      match paints p !! (toCamelCase type +:+ "Paint") with
      | Some paint =>
          if bool_decide (paint = ∅)
          then {[ "visibility" := VStr "none" ]}
          else {[ "visibility" := VStr "visible" ]}
      | None => {[ "visibility" := VStr "none" ]}
      end
  end.


(** The descriptor [createLayer] hands to [addLayer]. *)
Definition created_layer (t : GeoJSONLayer) (type : string) : Layer :=
  spread {| layer_id := buildLayerId t type; layer_source := id t;
            layer_type := type;
            layer_paint := default ∅ (paints (props t) !! (toCamelCase type +:+ "Paint"));
            layer_layout := computed_layout (props t) type;
            layer_filter := None; layer_rest := ∅ |}
         (layerOptions (props t)).

(** All the commands of one [createLayer]. *)
Definition layer_calls (t : GeoJSONLayer) (type : string) : list call :=
  AddLayer (created_layer t type) (before (props t)) :: on_calls t type.

(** Commands that leave the registered layers alone. *)
Definition keeps_layers (c : call) : Prop :=
  match c with
  | AddSource _ _ | RemoveSource _ | SetData _ _ | MoveLayer _ _
  | On _ _ _ | Off _ _ _ | OnStyleData | OffStyleData | ForceUpdate => True
  | _ => False
  end.

(** The commands of [unbind] on the map [m]. *)
Definition unbind_calls (t : GeoJSONLayer) (m : MapboxMap) : list call :=
  (if bool_decide (is_Some (getSource m (id t))) then [RemoveSource (id t)] else [])
  ++ off_calls t
  ++ (RemoveLayer <$> removed (map_layers m) (layerIds t)).

(** The commands one round of [updateLayer] can issue: each one addresses
    the layer id of that round. *)
Definition layer_command (layerId : string) (c : call) : Prop :=
  match c with
  | SetFilter i _ | SetPaintProperty i _ _ | SetLayoutProperty i _ _
  | MoveLayer i _ | On _ i _ | Off _ i _ => i = layerId
  | _ => False
  end.

(** The order the claim C7 states for the commands of an unmount: the
    style-reset listener goes, then handlers are unsubscribed, then the
    source is removed, then layers are removed. *)
Definition claimed_unmount_order (id : string) (cs : list call) : Prop :=
  ∃ offs removes,
    cs = OffStyleData :: offs ++ RemoveSource id :: removes ∧
    Forall (λ c, ∃ event layerId h, c = Off event layerId h) offs ∧
    Forall (λ c, ∃ layerId, c = RemoveLayer layerId) removes.

(** Commands that leave the registered sources alone. *)
Definition keeps_sources (c : call) : Prop :=
  match c with
  | AddSource _ _ | RemoveSource _ | SetData _ _ => False
  | _ => True
  end.

(** [layerFilterChanged] of [componentWillReceiveProps]. *)
Definition filter_changed (cur next : Props) : bool :=
  match layerOptions next, layerOptions cur with
  | Some n, Some c => negb (isEqual (lo_filter n) (lo_filter c))
  | _, _ => false
  end.

(** The commands of a property update of the instance [t]: [setData] on its
    source, and commands addressed to one of its five layer ids. *)
Definition update_call (t : GeoJSONLayer) (c : call) : Prop :=
  (∃ d, c = SetData (id t) d) ∨
  (∃ type, type ∈ types ∧ layer_command (buildLayerId t type) c).




(** The props declared by [LineProps], [CircleProps], [SymbolProps],
    [FillProps] and [FillExtrusionProps], in the order of the source. *)
Definition declared_props : list string :=
  [ "linePaint"; "lineLayout"; "lineOnMouseMove"; "lineOnMouseEnter";
    "lineOnMouseLeave"; "lineOnMouseDown"; "lineOnMouseUp"; "lineOnClick";
    "circlePaint"; "circleLayout"; "circleOnMouseMove"; "circleOnMouseEnter";
    "circleOnMouseLeave"; "circleOnMouseDown"; "circleOnMouseUp"; "circleOnClick";
    "symbolLayout"; "symbolPaint"; "symbolOnMouseMove"; "symbolOnMouseEnter";
    "symbolOnMouseLeave"; "symbolOnMouseDown"; "symbolOnMouseUp"; "symbolOnClick";
    "fillLayout"; "fillPaint"; "fillOnMouseMove"; "fillOnMouseEnter";
    "fillOnMouseLeave"; "fillOnMouseDown"; "fillOnMouseUp"; "fillOnClick";
    "fillExtrusionLayout"; "fillExtrusionPaint"; "fillExtrusionOnMouseMove";
    "fillExtrusionOnMouseEnter"; "fillExtrusionOnMouseLeave";
    "fillExtrusionOnMouseDown"; "fillExtrusionOnMouseUp"; "fillExtrusionOnClick" ].

(** The names the methods compute to read the props: for each type the
    paint, the layout and one handler per event. *)
Definition computed_props : list string :=
  type ← types;
  suffix ← "Paint" :: "Layout" :: eventToHandler.*2;
  [toCamelCase type +:+ suffix].


(** Two successive values of a paint or layout prop that [diff] is never
    asked to compare with an [undefined] operand: equal, or both objects. *)
Definition diffable (old new : option obj) : Prop :=
  old = new ∨ (is_Some old ∧ is_Some new).

(** Commands that may register a layer but never change or remove one. *)
Definition adds_only (c : call) : Prop :=
  match c with
  | RemoveLayer _ | SetFilter _ _ | SetPaintProperty _ _ _
  | SetLayoutProperty _ _ _ => False
  | _ => True
  end.

(** The commands of [initialize]. *)
Definition initialize_calls (t : GeoJSONLayer) : list call :=
  AddSource (id t) (source t) :: (type ← types; layer_calls t type).

(** What the diff step of an update computes for one paint or layout prop:
    nothing to apply when the two values are deep-equal, the [diff] of two
    objects, and whatever [diff] does when one side is [undefined]. *)
Definition diffed (du : option obj → option obj → outcome obj)
    (old new : option obj) : outcome obj :=
  if isEqual new old then Ret ∅
  else match old, new with
       | Some obj1, Some obj2 => Ret (diff obj1 obj2)
       | _, _ => du old new
       end.

Definition diff_or_empty (du : option obj → option obj → outcome obj)
    (old new : option obj) : obj :=
  match diffed du old new with
  | Ret d => d
  | Throw _ => ∅
  end.

(** The commands of the five steps of one round of [updateLayer]. *)
Definition filter_calls (next : Props) (changed : bool) (layerId : string)
    : list call :=
  match layerOptions next with
  | Some n => if changed then [SetFilter layerId (default [] (lo_filter n))] else []
  | None => []
  end.

Definition paint_calls (layerId : string) (d : obj) : list call :=
  (λ kv, SetPaintProperty layerId kv.1 kv.2) <$> map_to_list d.

Definition layout_calls (layerId : string) (d : obj) : list call :=
  (λ kv, SetLayoutProperty layerId kv.1 kv.2) <$> map_to_list d.

Definition handler_calls (cur next : Props) (type layerId : string) : list call :=
  '(event, suffix) ← eventToHandler;
  if bool_decide (handlers next !! (toCamelCase type +:+ suffix)
                  ≠ handlers cur !! (toCamelCase type +:+ suffix))
  then match handlers cur !! (toCamelCase type +:+ suffix) with
       | Some h => [Off event layerId h]
       | None => []
       end
       ++ match handlers next !! (toCamelCase type +:+ suffix) with
          | Some h => [On event layerId h]
          | None => []
          end
  else [].

Definition move_calls (cur next : Props) (layerId : string) : list call :=
  if bool_decide (before cur ≠ before next)
  then [MoveLayer layerId (before next)] else [].

(** The commands of one round that returns normally. *)
Definition round_calls (du : option obj → option obj → outcome obj)
    (t : GeoJSONLayer) (next : Props) (changed : bool) (type : string) : list call :=
  filter_calls next changed (buildLayerId t type)
  ++ paint_calls (buildLayerId t type)
       (diff_or_empty du (paints (props t) !! (toCamelCase type +:+ "Paint"))
                         (paints next !! (toCamelCase type +:+ "Paint")))
  ++ layout_calls (buildLayerId t type)
       (diff_or_empty du (layouts (props t) !! (toCamelCase type +:+ "Layout"))
                         (layouts next !! (toCamelCase type +:+ "Layout")))
  ++ handler_calls (props t) next type (buildLayerId t type)
  ++ move_calls (props t) next (buildLayerId t type).

(** The commands of an update that returns normally. *)
Definition update_calls (du : option obj → option obj → outcome obj)
    (t : GeoJSONLayer) (next : Props) : list call :=
  (if bool_decide (data next ≠ data (props t))
   then [SetData (id t) (data next)] else [])
  ++ (type ← types; round_calls du t next (filter_changed (props t) next) type).

(** The method a command calls. *)
Definition method (c : call) : string :=
  match c with
  | AddSource _ _ => "addSource"
  | RemoveSource _ => "removeSource"
  | SetData _ _ => "setData"
  | AddLayer _ _ => "addLayer"
  | RemoveLayer _ => "removeLayer"
  | SetFilter _ _ => "setFilter"
  | SetPaintProperty _ _ _ => "setPaintProperty"
  | SetLayoutProperty _ _ _ => "setLayoutProperty"
  | MoveLayer _ _ => "moveLayer"
  | On _ _ _ | OnStyleData => "on"
  | Off _ _ _ | OffStyleData => "off"
  | ForceUpdate => "forceUpdate"
  end.

(** The states of a mounted binding: the instance built from the props [p]
    (with [uid] from the id generator) is mounted on a live map; from then
    on the framework delivers property updates that return normally, and
    the map replaces its style by whatever it likes and notifies the
    binding. *)
Inductive reachable (du : option obj → option obj → outcome obj)
    (p : Props) (uid : string) : state → Prop :=
| reach_mount m cs s :
    componentWillMount {| this := new_GeoJSONLayer p uid;
                          context_map := Some m; calls := cs |} = (Ret tt, s) →
    reachable du p uid s
| reach_update s next s' :
    reachable du p uid s →
    update du next s = (Ret tt, s') →
    reachable du p uid s'
| reach_style s m' s' :
    reachable du p uid s →
    onStyleDataChange {| this := this s; context_map := Some m'; calls := calls s |}
    = (Ret tt, s') →
    reachable du p uid s'.

(** ** Running examples *)

(** The binding ["g"] with a black line paint and a click handler on the
    line layer, on a map with a loaded, empty style. *)
Definition example_props : Props :=
  {| id_prop := Some "g"; data := DataRef 0; layerOptions := None;
     sourceOptions := None; before := None;
     paints := {[ "linePaint" := {[ "line-color" := VStr "#000" ]} ]};
     layouts := ∅;
     handlers := {[ "lineOnClick" := HandlerRef 1 ]} |}.

Definition empty_map : MapboxMap :=
  {| has_style := true; map_sources := ∅; map_layers := ∅ |}.

Definition example_initial : state :=
  {| this := new_GeoJSONLayer example_props "1";
     context_map := Some empty_map; calls := [] |}.

Definition example_mounted : state := (componentWillMount example_initial).2.

(** A map whose style has been unloaded. *)
Definition unloaded_map : MapboxMap :=
  {| has_style := false; map_sources := ∅; map_layers := ∅ |}.

(** The map of the mounted example: the source ["g"] and its five layers. *)
Definition example_map : MapboxMap :=
  default empty_map (context_map example_mounted).

(** The state [s] on another map. *)
Definition on_map (m : option MapboxMap) (s : state) : state :=
  {| this := this s; context_map := m; calls := calls s |}.

(** One behaviour [diff] may have on an [undefined] operand. *)
Definition diff_raises : option obj → option obj → outcome obj :=
  λ _ _, Throw TypeError.

(** The mounted example after the style has been replaced: nothing of the
    binding is registered any more. *)
Definition example_reset : state := on_map (Some empty_map) example_mounted.

(** The example after the binding has answered the style reset. *)
Definition example_rebound : state := (onStyleDataChange example_reset).2.

(** The running example with a [layerOptions] that carries its own layout. *)
Definition hidden_options : LayerOptions :=
  {| lo_id := None; lo_source := None; lo_type := None; lo_paint := None;
     lo_layout := Some {[ "visibility" := VStr "none" ]};
     lo_filter := None; lo_rest := ∅ |}.

Definition override_props : Props :=
  {| id_prop := Some "g"; data := DataRef 0; layerOptions := Some hidden_options;
     sourceOptions := None; before := None;
     paints := {[ "linePaint" := {[ "line-color" := VStr "#000" ]} ]};
     layouts := ∅;
     handlers := ∅ |}.

Definition override_initial : state :=
  {| this := new_GeoJSONLayer override_props "1";
     context_map := Some empty_map; calls := [] |}.

(** The example with a new payload and nothing else changed. *)
Definition new_data_props : Props :=
  {| id_prop := Some "g"; data := DataRef 1; layerOptions := None;
     sourceOptions := None; before := None;
     paints := {[ "linePaint" := {[ "line-color" := VStr "#000" ]} ]};
     layouts := ∅;
     handlers := {[ "lineOnClick" := HandlerRef 1 ]} |}.

(** The source descriptor the example registered at mount. *)
Definition example_source : Sources := sourceDescriptor None (DataRef 0).

(** The example repainted: the line colour goes from black to white. *)
Definition white_props : Props :=
  {| id_prop := Some "g"; data := DataRef 0; layerOptions := None;
     sourceOptions := None; before := None;
     paints := {[ "linePaint" := {[ "line-color" := VStr "#fff" ]} ]};
     layouts := ∅;
     handlers := {[ "lineOnClick" := HandlerRef 1 ]} |}.

Definition example_repainted : state :=
  (componentWillReceiveProps diff_raises white_props example_mounted).2.

(** The running example with a filter among its layer options, and the
    same with another filter. *)
Definition road_filter : list value := [VStr "=="; VStr "kind"; VStr "road"].
Definition path_filter : list value := [VStr "=="; VStr "kind"; VStr "path"].

Definition with_filter (f : list value) : Props :=
  {| id_prop := Some "g"; data := DataRef 0;
     layerOptions :=
       Some {| lo_id := None; lo_source := None; lo_type := None;
               lo_paint := None; lo_layout := None; lo_filter := Some f;
               lo_rest := ∅ |};
     sourceOptions := None; before := None;
     paints := {[ "linePaint" := {[ "line-color" := VStr "#000" ]} ]};
     layouts := ∅;
     handlers := {[ "lineOnClick" := HandlerRef 1 ]} |}.

(** The example mounted with [road_filter], then given [path_filter]. *)
Definition filtered_mounted : state :=
  (componentWillMount
     {| this := new_GeoJSONLayer (with_filter road_filter) "1";
        context_map := Some empty_map; calls := [] |}).2.


Definition refiltered : state :=
  (componentWillReceiveProps diff_raises (with_filter path_filter) filtered_mounted).2.





(** The running example moved before the layer ["roads"]. *)
Definition moved_props : Props :=
  {| id_prop := Some "g"; data := DataRef 0; layerOptions := None;
     sourceOptions := None; before := Some "roads";
     paints := {[ "linePaint" := {[ "line-color" := VStr "#000" ]} ]};
     layouts := ∅;
     handlers := {[ "lineOnClick" := HandlerRef 1 ]} |}.

Definition moved : state :=
  (componentWillReceiveProps diff_raises moved_props example_mounted).2.

(** The running example with another click handler. *)
Definition rehandled_props : Props :=
  {| id_prop := Some "g"; data := DataRef 0; layerOptions := None;
     sourceOptions := None; before := None;
     paints := {[ "linePaint" := {[ "line-color" := VStr "#000" ]} ]};
     layouts := ∅;
     handlers := {[ "lineOnClick" := HandlerRef 2 ]} |}.

Definition rehandled : state :=
  (componentWillReceiveProps diff_raises rehandled_props example_mounted).2.


Definition redated : state :=
  (componentWillReceiveProps diff_raises new_data_props example_mounted).2.

(** The running example with a [layerOptions] that names the layer. *)
Definition named_options : LayerOptions :=
  {| lo_id := Some "roads"; lo_source := None; lo_type := None; lo_paint := None;
     lo_layout := None; lo_filter := None; lo_rest := ∅ |}.

Definition named_props : Props :=
  {| id_prop := Some "g"; data := DataRef 0; layerOptions := Some named_options;
     sourceOptions := None; before := None;
     paints := {[ "linePaint" := {[ "line-color" := VStr "#000" ]} ]};
     layouts := ∅;
     handlers := ∅ |}.

Definition named_initial : state :=
  {| this := new_GeoJSONLayer named_props "1";
     context_map := Some empty_map; calls := [] |}.

(** ** General lemmas *)

Lemma apply_calls_app cs1 cs2 m :
  apply_calls (cs1 ++ cs2) m = apply_calls cs2 (apply_calls cs1 m).
Proof. unfold apply_calls. apply foldl_app. Qed.

Lemma evolve_nil s : evolve s [] [] = s.
Proof.
  destruct s as [[p i src ids] m cs]. unfold evolve. simpl.
  rewrite !app_nil_r. by destruct m.
Qed.

Lemma this_evolve_nil s cs : this (evolve s [] cs) = this s.
Proof. destruct s as [[p i src ids] m cs0]. simpl. by rewrite app_nil_r. Qed.

Lemma evolve_evolve s ids1 cs1 ids2 cs2 :
  evolve (evolve s ids1 cs1) ids2 cs2 = evolve s (ids1 ++ ids2) (cs1 ++ cs2).
Proof.
  unfold evolve. simpl. rewrite <- !app_assoc. f_equal.
  destruct (context_map s); simpl; [| done]. by rewrite apply_calls_app.
Qed.

Lemma map_call_run c s :
  is_Some (context_map s) → map_call c s = (Ret tt, evolve s [] [c]).
Proof.
  intros [m Hm]. unfold map_call, evolve. rewrite Hm. simpl.
  destruct s as [[p i src ids] m' cs]. simpl in *. by rewrite app_nil_r.
Qed.

Lemma map_read_run {A} (f : MapboxMap → A) s m :
  context_map s = Some m → map_read f s = (Ret (f m), s).
Proof. intros Hm. unfold map_read. by rewrite Hm. Qed.

Lemma context_map_evolve s ids cs m :
  context_map s = Some m → context_map (evolve s ids cs) = Some (apply_calls cs m).
Proof. intros Hm. unfold evolve. cbn [context_map]. by rewrite Hm. Qed.

Lemma evolve_has_map s ids cs :
  is_Some (context_map s) → is_Some (context_map (evolve s ids cs)).
Proof. intros [m Hm]. simpl. rewrite Hm. by eexists. Qed.

Lemma bind_run {A B} (m : M A) (f : A → M B) s a s1 :
  m s = (Ret a, s1) → (m ≫= f) s = f a s1.
Proof. intros H. unfold mbind, M_bind. by rewrite H. Qed.

Lemma bind_Ret_inv {A B} (m : M A) (f : A → M B) s b s' :
  (m ≫= f) s = (Ret b, s') →
  ∃ a s1, m s = (Ret a, s1) ∧ f a s1 = (Ret b, s').
Proof.
  unfold mbind, M_bind. destruct (m s) as [[a | e] s1]; [eauto | discriminate].
Qed.


(** A loop whose body only issues commands issues them all, in order. *)
Lemma forEach_run {A} (l : list A) (f : A → M unit) (g : A → list call) s :
  (∀ x s, x ∈ l → is_Some (context_map s) → f x s = (Ret tt, evolve s [] (g x))) →
  is_Some (context_map s) →
  forEach l f s = (Ret tt, evolve s [] (x ← l; g x)).
Proof.
  revert s. induction l as [| x l IH]; intros s Hf Hs; simpl.
  - by rewrite evolve_nil.
  - erewrite bind_run; [| apply Hf; [left | done]].
    rewrite IH; [| intros; apply Hf; [by right | done] | by apply evolve_has_map].
    by rewrite evolve_evolve.
Qed.

(** ** Runs of the methods on a live map *)

Lemma push_layerId_run lId s : push_layerId lId s = (Ret tt, evolve s [lId] []).
Proof.
  unfold push_layerId, evolve. rewrite app_nil_r. by destruct (context_map s).
Qed.

Lemma mapLayerMouseHandlers_run type s :
  is_Some (context_map s) →
  mapLayerMouseHandlers type s = (Ret tt, evolve s [] (on_calls (this s) type)).
Proof.
  intros Hs. unfold mapLayerMouseHandlers.
  erewrite bind_run; [| reflexivity].
  apply forEach_run; [| done].
  intros [event suffix] s0 _ Hs0.
  destruct (handlers (props (this s)) !! (toCamelCase type +:+ suffix)).
  - by apply map_call_run.
  - by rewrite evolve_nil.
Qed.

Lemma computed_layout_eq p type :
  default {[ "visibility" :=
               VStr (if bool_decide
                          (size (default (∅ : obj)
                                   (paints p !! (toCamelCase type +:+ "Paint"))) = 0)
                     then "none" else "visible") ]}
          (layouts p !! (toCamelCase type +:+ "Layout"))
  = computed_layout p type.
Proof.
  unfold computed_layout.
  destruct (layouts p !! _); simpl; [done |].
  destruct (paints p !! _) as [paint |]; simpl; [| done].
  destruct (decide (paint = ∅)) as [-> | Hne].
  - by rewrite !bool_decide_eq_true_2.
  - rewrite !bool_decide_eq_false_2; [done | done |].
    intros H. by apply map_size_empty_iff in H.
Qed.

Lemma createLayer_run type s :
  is_Some (context_map s) →
  createLayer type s
  = (Ret tt, evolve s [buildLayerId (this s) type] (layer_calls (this s) type)).
Proof.
  intros Hs. unfold createLayer.
  erewrite bind_run; [| reflexivity].
  erewrite bind_run; [| apply push_layerId_run].
  rewrite computed_layout_eq.
  erewrite bind_run; [| apply map_call_run; by apply evolve_has_map].
  rewrite mapLayerMouseHandlers_run; [| by do 2 apply evolve_has_map].
  by rewrite !evolve_evolve.
Qed.

Lemma initialize_run s :
  is_Some (context_map s) →
  initialize s
  = (Ret tt, evolve s (buildLayerId (this s) <$> types)
               (AddSource (id (this s)) (source (this s))
                  :: (type ← types; layer_calls (this s) type))).
Proof.
  intros Hs. unfold initialize.
  erewrite bind_run; [| reflexivity].
  erewrite bind_run; [| by apply map_call_run].
  do 4 (erewrite bind_run;
        [| apply createLayer_run; repeat apply evolve_has_map; done];
        rewrite evolve_evolve).
  rewrite createLayer_run; [| by apply evolve_has_map].
  rewrite evolve_evolve. simpl. by rewrite !app_nil_r, <- !app_assoc.
Qed.

Lemma keeps_layers_apply cs m :
  Forall keeps_layers cs → map_layers (apply_calls cs m) = map_layers m.
Proof.
  intros H. revert m. induction H as [| c cs Hc _ IH]; intros m; [done |].
  change (apply_calls (c :: cs) m) with (apply_calls cs (apply_call c m)).
  rewrite IH. by destruct c.
Qed.

Lemma off_calls_keep_layers t : Forall keeps_layers (off_calls t).
Proof.
  apply Forall_forall. intros c Hc. unfold off_calls in Hc.
  apply list_elem_of_bind in Hc as (type & Hc & _).
  apply list_elem_of_bind in Hc as ([event suffix] & Hc & _).
  destruct (handlers (props t) !! _); [| by apply elem_of_nil in Hc].
  apply list_elem_of_singleton in Hc as ->. done.
Qed.

Lemma remove_loop_run ids s m :
  context_map s = Some m →
  forEach ids (λ lId,
    l ← map_read (λ m, getLayer m lId);
    when (bool_decide (is_Some l)) (map_call (RemoveLayer lId))) s
  = (Ret tt, evolve s [] (RemoveLayer <$> removed (map_layers m) ids)).
Proof.
  revert s m. induction ids as [| lId ids IH]; intros s m Hm; simpl.
  - by rewrite evolve_nil.
  - destruct (map_layers m !! lId) as [l |] eqn:Hl.
    + erewrite bind_run.
      2:{ erewrite bind_run; [| by apply map_read_run].
          unfold getLayer. rewrite Hl. simpl. apply map_call_run. by rewrite Hm. }
      erewrite IH; [| simpl; by rewrite Hm].
      by rewrite evolve_evolve.
    + erewrite bind_run.
      2:{ erewrite bind_run; [| by apply map_read_run].
          unfold getLayer. rewrite Hl. reflexivity. }
      by apply IH.
Qed.

Lemma off_loop_run t s :
  is_Some (context_map s) →
  forEach types (λ type,
    forEach eventToHandler (λ '(event, suffix),
      let prop := toCamelCase type +:+ suffix in
      match handlers (props t) !! prop with
      | Some h => map_call (Off event (buildLayerId t type) h)
      | None => mret tt
      end)) s
  = (Ret tt, evolve s [] (off_calls t)).
Proof.
  intros Hs. apply forEach_run; [| done].
  intros type s0 _ Hs0. apply forEach_run; [| done].
  intros [event suffix] s1 _ Hs1. simpl.
  destruct (handlers (props t) !! _).
  - by apply map_call_run.
  - by rewrite evolve_nil.
Qed.

Lemma unbind_run s m :
  context_map s = Some m →
  unbind s = (Ret tt, evolve s [] (unbind_calls (this s) m)).
Proof.
  intros Hm. unfold unbind, unbind_calls.
  erewrite bind_run; [| reflexivity].
  erewrite bind_run; [| by apply map_read_run].
  set (src_calls := if bool_decide (is_Some (getSource m (id (this s))))
                    then [RemoveSource (id (this s))] else []).
  assert (when (bool_decide (is_Some (getSource m (id (this s)))))
               (map_call (RemoveSource (id (this s)))) s
          = (Ret tt, evolve s [] src_calls)) as Hsrc.
  { subst src_calls. destruct (bool_decide _); simpl.
    - apply map_call_run. by rewrite Hm.
    - by rewrite evolve_nil. }
  erewrite bind_run; [| exact Hsrc].
  erewrite bind_run; [| apply off_loop_run, evolve_has_map; by rewrite Hm].
  rewrite evolve_evolve.
  erewrite remove_loop_run; [| simpl; by rewrite Hm].
  rewrite evolve_evolve. simpl.
  rewrite keeps_layers_apply; [by rewrite <- app_assoc |].
  apply Forall_app. split; [| apply off_calls_keep_layers].
  subst src_calls. destruct (bool_decide _); by repeat constructor.
Qed.

(** What [removed] removes: every listed id that is registered, once. *)
Lemma removed_spec layers ids :
  NoDup (removed layers ids) ∧
  ∀ lId, lId ∈ removed layers ids ↔ lId ∈ ids ∧ is_Some (layers !! lId).
Proof.
  revert layers. induction ids as [| i ids IH]; intros layers; simpl.
  - split; [constructor |]. intros lId. split; [by intros ?%elem_of_nil |].
    by intros [?%elem_of_nil _].
  - destruct (layers !! i) as [l |] eqn:Hi.
    + destruct (IH (delete i layers)) as [Hnd Hin]. split.
      * constructor; [| done]. intros H%Hin. destruct H as [_ [x Hx]].
        by rewrite lookup_delete_eq in Hx.
      * intros lId. rewrite !elem_of_cons, Hin. split.
        -- intros [-> | [H1 [x Hx]]]; [split; [by left | by eexists] |].
           split; [by right |]. apply lookup_delete_Some in Hx as [_ Hx]. by eexists.
        -- intros [[-> | H1] [x Hx]]; [by left |].
           destruct (decide (lId = i)) as [-> | Hne]; [by left |].
           right. split; [done |]. exists x. by rewrite lookup_delete_ne.
    + destruct (IH layers) as [Hnd Hin]. split; [done |].
      intros lId. rewrite elem_of_cons, Hin. split.
      * intros [H1 H2]. split; [by right | done].
      * intros [[-> | H1] [x Hx]]; [congruence |]. split; [done | by eexists].
Qed.

(** ** Properties kept by every command of a run *)

Lemma evolves_refl P s : evolves P s s.
Proof.
  repeat split. exists []. rewrite app_nil_r. split; [constructor |].
  split; [done |]. by destruct (context_map s).
Qed.

Lemma evolves_trans P s1 s2 s3 :
  evolves P s1 s2 → evolves P s2 s3 → evolves P s1 s3.
Proof.
  intros (Hi1 & Hl1 & cs1 & HP1 & Hc1 & Hm1) (Hi2 & Hl2 & cs2 & HP2 & Hc2 & Hm2).
  split; [congruence |]. split; [congruence |].
  exists (cs1 ++ cs2). split; [by apply Forall_app |].
  split; [by rewrite Hc2, Hc1, app_assoc |].
  rewrite Hm2, Hm1. destruct (context_map s1); simpl; [| done].
  by rewrite apply_calls_app.
Qed.

Lemma evolves_weaken (P Q : call → Prop) s s' :
  (∀ c, P c → Q c) → evolves P s s' → evolves Q s s'.
Proof.
  intros HPQ (Hi & Hl & cs & HP & Hc & Hm). repeat split; [done | done |].
  exists cs. split; [| done]. eapply Forall_impl; eauto.
Qed.


Lemma preserves_weaken {A} (P Q : call → Prop) (m : M A) :
  (∀ c, P c → Q c) → preserves P m → preserves Q m.
Proof. intros HPQ Hm s. eapply evolves_weaken; eauto. Qed.

Lemma preserves_ret {A} P (a : A) : preserves P (mret a).
Proof. intros s. apply evolves_refl. Qed.

Lemma preserves_throw {A} P e : preserves P (throw (A := A) e).
Proof. intros s. apply evolves_refl. Qed.

Lemma preserves_bind {A B} P (m : M A) (f : A → M B) :
  preserves P m → (∀ a, preserves P (f a)) → preserves P (m ≫= f).
Proof.
  intros Hm Hf s. specialize (Hm s). unfold mbind, M_bind.
  destruct (m s) as [[a | e] s1]; simpl in *; [| done].
  eapply evolves_trans; [done | apply Hf].
Qed.

Lemma preserves_forEach {A} P (l : list A) (f : A → M unit) :
  (∀ x, x ∈ l → preserves P (f x)) → preserves P (forEach l f).
Proof.
  induction l as [| x l IH]; intros Hf; simpl; [apply preserves_ret |].
  apply preserves_bind; [apply Hf; by left |].
  intros _. apply IH. intros y Hy. apply Hf. by right.
Qed.

Lemma preserves_when P (b : bool) (m : M unit) :
  preserves P m → preserves P (when b m).
Proof. intros Hm. destruct b; [done | apply preserves_ret]. Qed.

Lemma preserves_map_call (P : call → Prop) c : P c → preserves P (map_call c).
Proof.
  intros Hc s. unfold map_call. destruct (context_map s) as [m |] eqn:Hm; simpl.
  - repeat split; simpl. exists [c]. rewrite Hm. by repeat constructor.
  - apply evolves_refl.
Qed.

Lemma preserves_map_read {A} P (f : MapboxMap → A) : preserves P (map_read f).
Proof.
  intros s. unfold map_read. destruct (context_map s); apply evolves_refl.
Qed.

Lemma preserves_get_this P : preserves P get_this.
Proof. intros s. apply evolves_refl. Qed.

Lemma preserves_set_source P src : preserves P (set_source src).
Proof.
  intros s. repeat split; simpl. exists []. rewrite app_nil_r.
  split; [constructor |]. split; [done |]. by destruct (context_map s).
Qed.

Lemma preserves_set_props P p : preserves P (set_props p).
Proof.
  intros s. repeat split; simpl. exists []. rewrite app_nil_r.
  split; [constructor |]. split; [done |]. by destruct (context_map s).
Qed.

Lemma preserves_diff_props P du o1 o2 : preserves P (diff_props du o1 o2).
Proof. intros s. destruct o1, o2; apply evolves_refl. Qed.

Ltac preserves_step :=
  first
    [ apply preserves_ret
    | apply preserves_throw
    | apply preserves_get_this
    | apply preserves_map_read
    | apply preserves_set_source
    | apply preserves_set_props
    | apply preserves_diff_props
    | apply preserves_when
    | apply preserves_map_call; simpl; try done
    | apply preserves_forEach; intros [? ?] _
    | apply preserves_bind; [| intros ?]
    | match goal with |- preserves _ (match ?x with _ => _ end) => destruct x end ].

Lemma updateLayer_preserves du t next changed type :
  preserves (layer_command (buildLayerId t type)) (updateLayer du t next changed type).
Proof. unfold updateLayer. repeat preserves_step. Qed.

(** ** Unmount *)

(** C6: calling unmount when the context has no map, or when the map has no
    style any more, returns normally and leaves the state as it is: nothing
    is logged, registered or unregistered. *)
Theorem unmount_without_style_is_noop (s : state) :
  (context_map s = None ∨ ∃ m, context_map s = Some m ∧ getStyle m = false) →
  componentWillUnmount s = (Ret tt, s).
Proof.
  intros [Hm | (m & Hm & Hstyle)]; unfold componentWillUnmount;
    (erewrite bind_run; [| reflexivity]); rewrite Hm; [done |].
  by rewrite Hstyle.
Qed.

Lemma unmount_without_style_is_noop_witness :
  ((context_map (on_map None example_mounted) = None ∨
    ∃ m, context_map (on_map None example_mounted) = Some m ∧ getStyle m = false) ∧
   componentWillUnmount (on_map None example_mounted)
   = (Ret tt, on_map None example_mounted)) ∧
  ((context_map (on_map (Some unloaded_map) example_mounted) = None ∨
    ∃ m, context_map (on_map (Some unloaded_map) example_mounted) = Some m ∧
         getStyle m = false) ∧
   componentWillUnmount (on_map (Some unloaded_map) example_mounted)
   = (Ret tt, on_map (Some unloaded_map) example_mounted)).
Proof.
  assert (context_map (on_map None example_mounted) = None ∨
          ∃ m, context_map (on_map None example_mounted) = Some m ∧
               getStyle m = false) as H1
    by (left; reflexivity).
  assert (context_map (on_map (Some unloaded_map) example_mounted) = None ∨
          ∃ m, context_map (on_map (Some unloaded_map) example_mounted) = Some m ∧
               getStyle m = false) as H2
    by (right; exists unloaded_map; split; reflexivity).
  split; (split; [eassumption |]).
  - exact (unmount_without_style_is_noop _ H1).
  - exact (unmount_without_style_is_noop _ H2).
Defined.

(** C7, as stated, fails: unmounting the running example removes the source
    before it unsubscribes the click handler. *)
Lemma unmount_order_counterexample :
  ∃ s', componentWillUnmount example_mounted = (Ret tt, s') ∧
    ∃ cs, calls s' = calls example_mounted ++ cs ∧
      cs = [ OffStyleData; RemoveSource "g"; Off "click" "g-line" (HandlerRef 1);
             RemoveLayer "g-symbol"; RemoveLayer "g-line"; RemoveLayer "g-fill";
             RemoveLayer "g-fill-extrusion"; RemoveLayer "g-circle" ] ∧
      ¬ claimed_unmount_order "g" cs.
Proof.
  eexists. split; [vm_compute; reflexivity |].
  eexists. split; [vm_compute; reflexivity |].
  split; [reflexivity |].
  intros (offs & removes & Hcs & Hoffs & Hrem).
  destruct offs as [| c offs].
  - injection Hcs as Hcs. rewrite <- Hcs in Hrem.
    apply Forall_cons in Hrem as [[layerId Hc] _]. discriminate.
  - injection Hcs as Hc _. rewrite <- Hc in Hoffs.
    apply Forall_cons in Hoffs as [(event & layerId & h & Hoff) _]. discriminate.
Qed.

(** C7, amended: with the map and its style present, unmount returns
    normally and issues, in this order: the removal of the style-reset
    listener; the removal of the source, if it is registered; one
    unsubscription per handler declared in the props, type by type and
    event by event; one removal per layer id of [layerIds] that is
    registered, each removed once. *)
Theorem unmount_calls (s : state) (m : MapboxMap) :
  context_map s = Some m → getStyle m = true →
  ∃ s' removes,
    componentWillUnmount s = (Ret tt, s') ∧
    calls s' = calls s
               ++ [OffStyleData]
               ++ (if bool_decide (is_Some (getSource m (id (this s))))
                   then [RemoveSource (id (this s))] else [])
               ++ off_calls (this s)
               ++ (RemoveLayer <$> removes) ∧
    NoDup removes ∧
    ∀ lId, lId ∈ removes ↔ lId ∈ layerIds (this s) ∧ is_Some (getLayer m lId).
Proof.
  intros Hm Hstyle.
  eexists _, (removed (map_layers m) (layerIds (this s))).
  split; [| split].
  - unfold componentWillUnmount. erewrite bind_run; [| reflexivity].
    rewrite Hm, Hstyle. simpl.
    erewrite bind_run; [| apply map_call_run; by rewrite Hm].
    erewrite unbind_run; [| simpl; by rewrite Hm].
    rewrite evolve_evolve, this_evolve_nil. reflexivity.
  - simpl. unfold unbind_calls. reflexivity.
  - apply removed_spec.
Qed.

Lemma unmount_calls_witness :
  context_map example_mounted = Some example_map ∧
  getStyle example_map = true ∧
  ∃ s' removes,
    componentWillUnmount example_mounted = (Ret tt, s') ∧
    calls s' = calls example_mounted
               ++ [OffStyleData]
               ++ (if bool_decide
                        (is_Some (getSource example_map (id (this example_mounted))))
                   then [RemoveSource (id (this example_mounted))] else [])
               ++ off_calls (this example_mounted)
               ++ (RemoveLayer <$> removes) ∧
    NoDup removes ∧
    ∀ lId, lId ∈ removes ↔
           lId ∈ layerIds (this example_mounted) ∧ is_Some (getLayer example_map lId).
Proof.
  assert (context_map example_mounted = Some example_map) as H1
    by (vm_compute; reflexivity).
  assert (getStyle example_map = true) as H2 by (vm_compute; reflexivity).
  split; [exact H1 |]. split; [exact H2 |].
  exact (unmount_calls example_mounted example_map H1 H2).
Defined.

(** ** Style reset *)

Lemma keeps_sources_apply cs m :
  Forall keeps_sources cs → map_sources (apply_calls cs m) = map_sources m.
Proof.
  intros H. revert m. induction H as [| c cs Hc _ IH]; intros m; [done |].
  change (apply_calls (c :: cs) m) with (apply_calls cs (apply_call c m)).
  rewrite IH. destruct c; try done. simpl. by destruct (map_layers m !! _).
Qed.

Lemma layer_calls_keep_sources t :
  Forall keeps_sources (type ← types; layer_calls t type).
Proof.
  apply Forall_forall. intros c Hc.
  apply list_elem_of_bind in Hc as (type & Hc & _).
  unfold layer_calls in Hc. apply elem_of_cons in Hc as [-> | Hc]; [done |].
  unfold on_calls in Hc. apply list_elem_of_bind in Hc as ([event suffix] & Hc & _).
  destruct (handlers (props t) !! _); [| by apply elem_of_nil in Hc].
  by apply list_elem_of_singleton in Hc as ->.
Qed.

Lemma forceUpdate_run s : forceUpdate s = (Ret tt, evolve s [] [ForceUpdate]).
Proof.
  unfold forceUpdate, evolve. destruct s as [[p i src ids] m cs]. simpl.
  rewrite app_nil_r. by destruct m.
Qed.

(** The state a rebind leads to, when the source is missing from the map. *)
Lemma rebind_run s m :
  context_map s = Some m → getSource m (id (this s)) = None →
  onStyleDataChange s
  = (Ret tt,
     evolve s (buildLayerId (this s) <$> types)
       (off_calls (this s)
          ++ (RemoveLayer <$> removed (map_layers m) (layerIds (this s)))
          ++ [AddSource (id (this s)) (source (this s))]
          ++ (type ← types; layer_calls (this s) type)
          ++ [ForceUpdate])).
Proof.
  intros Hm Hsrc. unfold onStyleDataChange.
  erewrite bind_run; [| reflexivity].
  erewrite bind_run; [| by apply map_read_run].
  rewrite Hsrc.
  erewrite bind_run; [| by apply unbind_run].
  erewrite bind_run; [| apply initialize_run, evolve_has_map; by rewrite Hm].
  rewrite forceUpdate_run, !evolve_evolve, this_evolve_nil.
  unfold unbind_calls. rewrite Hsrc. simpl. f_equal. f_equal.
  by rewrite <- !app_assoc.
Qed.

(** C8: on a style-change notification, if the source of the binding is
    registered nothing happens at all, whatever has become of the layers;
    if it is missing the binding unbinds (handlers unsubscribed, registered
    layers removed), adds the source and the five layers again and asks the
    framework to render again, after which the source is registered. *)
Theorem styledata_rebinds_iff_source_missing (s : state) (m : MapboxMap) :
  context_map s = Some m →
  (is_Some (getSource m (id (this s))) → onStyleDataChange s = (Ret tt, s)) ∧
  (getSource m (id (this s)) = None →
   ∃ s' removes m',
     onStyleDataChange s = (Ret tt, s') ∧
     calls s' = calls s
                ++ off_calls (this s)
                ++ (RemoveLayer <$> removes)
                ++ [AddSource (id (this s)) (source (this s))]
                ++ (type ← types; layer_calls (this s) type)
                ++ [ForceUpdate] ∧
     (∀ lId, lId ∈ removes ↔ lId ∈ layerIds (this s) ∧ is_Some (getLayer m lId)) ∧
     context_map s' = Some m' ∧
     getSource m' (id (this s)) = Some (source (this s))).
Proof.
  intros Hm. split.
  - intros [src Hsrc]. unfold onStyleDataChange.
    erewrite bind_run; [| reflexivity].
    erewrite bind_run; [| by apply map_read_run].
    by rewrite Hsrc.
  - intros Hsrc. eexists _, (removed (map_layers m) (layerIds (this s))), _.
    split; [by apply rebind_run |].
    split; [reflexivity |].
    split; [apply removed_spec |].
    split; [by apply context_map_evolve |].
    unfold getSource.
    rewrite (app_assoc (off_calls _)), !apply_calls_app.
    rewrite (keeps_sources_apply [ForceUpdate]) by (by repeat constructor).
    rewrite keeps_sources_apply by apply layer_calls_keep_sources.
    apply lookup_insert_eq.
Qed.

Lemma styledata_rebinds_iff_source_missing_witness :
  context_map example_reset = Some empty_map ∧
  (is_Some (getSource empty_map (id (this example_reset))) →
   onStyleDataChange example_reset = (Ret tt, example_reset)) ∧
  (getSource empty_map (id (this example_reset)) = None →
   ∃ s' removes m',
     onStyleDataChange example_reset = (Ret tt, s') ∧
     calls s' = calls example_reset
                ++ off_calls (this example_reset)
                ++ (RemoveLayer <$> removes)
                ++ [AddSource (id (this example_reset)) (source (this example_reset))]
                ++ (type ← types; layer_calls (this example_reset) type)
                ++ [ForceUpdate] ∧
     (∀ lId, lId ∈ removes ↔
             lId ∈ layerIds (this example_reset) ∧ is_Some (getLayer empty_map lId)) ∧
     context_map s' = Some m' ∧
     getSource m' (id (this example_reset)) = Some (source (this example_reset))).
Proof.
  assert (context_map example_reset = Some empty_map) as H by reflexivity.
  split; [exact H |].
  exact (styledata_rebinds_iff_source_missing example_reset empty_map H).
Defined.

(** Mount creates the five layers through [createLayer], in the order of
    [types], after the source and before the style-reset subscription. *)
Lemma componentWillMount_run s :
  is_Some (context_map s) →
  componentWillMount s
  = (Ret tt,
     evolve s (buildLayerId (this s) <$> types)
       ([AddSource (id (this s)) (source (this s))]
          ++ (type ← types; layer_calls (this s) type)
          ++ [OnStyleData])).
Proof.
  intros Hs. unfold componentWillMount.
  erewrite bind_run; [| by apply initialize_run].
  rewrite map_call_run by (by apply evolve_has_map).
  rewrite evolve_evolve, app_nil_r. simpl. by rewrite <- app_assoc.
Qed.

(** Mount records the five derived layer ids, in the order of [types]. *)
Lemma mount_layerIds s :
  is_Some (context_map s) →
  layerIds (this (componentWillMount s).2)
  = layerIds (this s) ++ (buildLayerId (this s) <$> types).
Proof. intros Hs. by rewrite componentWillMount_run. Qed.

(** Every rebind pushes the five layer ids once more. *)
Lemma rebind_appends_layerIds s m s' :
  context_map s = Some m → getSource m (id (this s)) = None →
  onStyleDataChange s = (Ret tt, s') →
  layerIds (this s') = layerIds (this s) ++ (buildLayerId (this s) <$> types).
Proof.
  intros Hm Hsrc Hrun. rewrite (rebind_run s m Hm Hsrc) in Hrun.
  by injection Hrun as <-.
Qed.

(** C3: the code departs from the claim.  After mount, one style reset and
    the notification that follows it, [layerIds] holds every derived layer
    id twice, while the map has one source and five layers of the binding
    registered. *)
Theorem layerIds_twice_after_rebind :
  layerIds (this example_mounted)
  = ["g-symbol"; "g-line"; "g-fill"; "g-fill-extrusion"; "g-circle"] ∧
  layerIds (this example_rebound)
  = ["g-symbol"; "g-line"; "g-fill"; "g-fill-extrusion"; "g-circle";
     "g-symbol"; "g-line"; "g-fill"; "g-fill-extrusion"; "g-circle"] ∧
  (dom ∘ map_layers <$> context_map example_rebound)
  = Some (list_to_set ["g-symbol"; "g-line"; "g-fill"; "g-fill-extrusion"; "g-circle"]
          : gset string) ∧
  (dom ∘ map_sources <$> context_map example_rebound)
  = Some ({[ "g" ]} : gset string).
Proof. repeat split; vm_compute; reflexivity. Qed.

(** ** Mount *)

(** C2, as stated, fails: with a non-empty line paint and no [lineLayout],
    but a layout inside [layerOptions], the line layer is created with the
    layout of [layerOptions], here an invisible one. *)
Lemma layout_default_counterexample :
  layouts override_props !! "lineLayout" = None ∧
  paints override_props !! "linePaint" = Some {[ "line-color" := VStr "#000" ]} ∧
  ∃ l s',
    createLayer "line" override_initial = (Ret tt, s') ∧
    calls s' = [AddLayer l None] ∧
    layer_layout l = {[ "visibility" := VStr "none" ]} ∧
    layer_layout l ≠ {[ "visibility" := VStr "visible" ]}.
Proof.
  split; [vm_compute; reflexivity |]. split; [vm_compute; reflexivity |].
  eexists _, _. split; [vm_compute; reflexivity |].
  split; [vm_compute; reflexivity |].
  split; [vm_compute; reflexivity |].
  intros H. apply (f_equal (λ o : obj, o !! "visibility")) in H.
  vm_compute in H. discriminate H.
Qed.

(** C2, amended: on a live map [createLayer] returns normally and adds one
    layer, before the [before] anchor of the props.  When [layerOptions]
    carries no layout of its own, the layout of that layer is the
    [<type>Layout] prop if there is one, and otherwise
    [{visibility: "visible"}] for a non-empty [<type>Paint] and
    [{visibility: "none"}] for an absent or empty one.  A layout carried by
    [layerOptions] replaces all of these. *)
Theorem createLayer_layout (type : string) (s : state) (m : MapboxMap) :
  context_map s = Some m →
  ∃ l rest s',
    createLayer type s = (Ret tt, s') ∧
    calls s' = calls s ++ AddLayer l (before (props (this s))) :: rest ∧
    let p := props (this s) in
    let explicit := layouts p !! (toCamelCase type +:+ "Layout") in
    let paint := paints p !! (toCamelCase type +:+ "Paint") in
    (layerOptions p ≫= lo_layout = None →
       (∀ layout, explicit = Some layout → layer_layout l = layout) ∧
       (explicit = None → ∀ P, paint = Some P → P ≠ ∅ →
          layer_layout l = {[ "visibility" := VStr "visible" ]}) ∧
       (explicit = None → paint = None ∨ paint = Some ∅ →
          layer_layout l = {[ "visibility" := VStr "none" ]})) ∧
    (∀ layout, layerOptions p ≫= lo_layout = Some layout → layer_layout l = layout).
Proof.
  intros Hm. eexists _, _, _.
  split; [apply createLayer_run; by rewrite Hm |].
  split; [reflexivity |].
  cbv zeta. unfold created_layer, spread, computed_layout.
  destruct (layerOptions (props (this s))) as [o |]; cbn [mbind option_bind layer_layout].
  - destruct (lo_layout o) as [lo |]; cbn [default]; (split; [| by intros layout [= ->]]).
    + done.
    + intros _. split; [| split].
      * by intros layout ->.
      * intros -> P -> HP. by rewrite bool_decide_eq_false_2.
      * intros -> [-> | ->]; [done |]. by rewrite bool_decide_eq_true_2.
  - split; [| done]. intros _. split; [| split].
    + by intros layout ->.
    + intros -> P -> HP. by rewrite bool_decide_eq_false_2.
    + intros -> [-> | ->]; [done |]. by rewrite bool_decide_eq_true_2.
Qed.

Lemma createLayer_layout_witness :
  context_map example_initial = Some empty_map ∧
  ∃ l rest s',
    createLayer "line" example_initial = (Ret tt, s') ∧
    calls s' = calls example_initial
               ++ AddLayer l (before (props (this example_initial))) :: rest ∧
    let p := props (this example_initial) in
    let explicit := layouts p !! (toCamelCase "line" +:+ "Layout") in
    let paint := paints p !! (toCamelCase "line" +:+ "Paint") in
    (layerOptions p ≫= lo_layout = None →
       (∀ layout, explicit = Some layout → layer_layout l = layout) ∧
       (explicit = None → ∀ P, paint = Some P → P ≠ ∅ →
          layer_layout l = {[ "visibility" := VStr "visible" ]}) ∧
       (explicit = None → paint = None ∨ paint = Some ∅ →
          layer_layout l = {[ "visibility" := VStr "none" ]})) ∧
    (∀ layout, layerOptions p ≫= lo_layout = Some layout → layer_layout l = layout).
Proof.
  assert (context_map example_initial = Some empty_map) as H by reflexivity.
  split; [exact H |].
  exact (createLayer_layout "line" example_initial empty_map H).
Defined.


(** ** Property updates *)

Lemma receiveProps_same_data du next s :
  data next = data (props (this s)) →
  componentWillReceiveProps du next s
  = forEach types
      (updateLayer du (this s) next (filter_changed (props (this s)) next)) s.
Proof.
  intros Hd. unfold componentWillReceiveProps.
  erewrite bind_run; [| reflexivity].
  rewrite bool_decide_eq_false_2 by (by intros ?).
  by erewrite bind_run; [| reflexivity].
Qed.

Lemma receiveProps_no_source du next s m :
  data next ≠ data (props (this s)) →
  context_map s = Some m → getSource m (id (this s)) = None →
  componentWillReceiveProps du next s = (Throw TypeError, s).
Proof.
  intros Hd Hm Hsrc. unfold componentWillReceiveProps.
  erewrite bind_run; [| reflexivity].
  rewrite bool_decide_eq_true_2 by done. simpl.
  unfold mbind, M_bind. rewrite (map_read_run _ s m Hm), Hsrc. done.
Qed.

Lemma receiveProps_new_data du next s m src :
  data next ≠ data (props (this s)) →
  context_map s = Some m → getSource m (id (this s)) = Some src →
  ∃ s1,
    componentWillReceiveProps du next s
    = forEach types
        (updateLayer du (this s) next (filter_changed (props (this s)) next)) s1 ∧
    calls s1 = calls s ++ [SetData (id (this s)) (data next)] ∧
    context_map s1 = Some (apply_call (SetData (id (this s)) (data next)) m) ∧
    id (this s1) = id (this s) ∧ layerIds (this s1) = layerIds (this s).
Proof.
  intros Hd Hm Hsrc. eexists. split.
  - unfold componentWillReceiveProps.
    erewrite bind_run; [| reflexivity].
    rewrite bool_decide_eq_true_2 by done.
    erewrite bind_run; [reflexivity |].
    cbn [when].
    erewrite bind_run; [| by apply map_read_run].
    rewrite Hsrc.
    erewrite bind_run; [| apply map_call_run; by rewrite Hm].
    reflexivity.
  - cbn [set_source snd calls context_map this id layerIds evolve].
    rewrite Hm, !app_nil_r. done.
Qed.

Lemma update_loop_evolves du t next changed s :
  evolves (λ c, ∃ type, type ∈ types ∧ layer_command (buildLayerId t type) c)
          s (forEach types (updateLayer du t next changed) s).2.
Proof.
  apply preserves_forEach. intros type Htype.
  eapply preserves_weaken; [| apply updateLayer_preserves]. eauto.
Qed.

Lemma update_call_loop t c :
  (∃ type, type ∈ types ∧ layer_command (buildLayerId t type) c) → update_call t c.
Proof. intros H. by right. Qed.

Lemma receiveProps_evolves du next s :
  evolves (update_call (this s)) s (componentWillReceiveProps du next s).2.
Proof.
  unfold componentWillReceiveProps.
  erewrite bind_run; [| reflexivity].
  generalize (this s). intros t. revert s.
  match goal with
  | |- ∀ s, evolves ?P s (?m s).2 => change (preserves P m)
  end.
  apply preserves_bind.
  - apply preserves_when. apply preserves_bind; [apply preserves_map_read |].
    intros [src |].
    + apply preserves_bind; [| intros _; apply preserves_set_source].
      apply preserves_map_call. left. by eexists.
    + apply preserves_bind; [apply preserves_throw |].
      intros _. apply preserves_set_source.
  - intros _ s. eapply evolves_weaken; [apply update_call_loop |].
    apply update_loop_evolves.
Qed.


(** No command of an update registers or unregisters anything. *)
Lemma update_call_frame t cs m :
  Forall (update_call t) cs →
  dom (map_sources (apply_calls cs m)) = dom (map_sources m) ∧
  dom (map_layers (apply_calls cs m)) = dom (map_layers m).
Proof.
  intros H. revert m. induction H as [| c cs Hc _ IH]; intros m; [done |].
  change (apply_calls (c :: cs) m) with (apply_calls cs (apply_call c m)).
  destruct (IH (apply_call c m)) as [-> ->].
  destruct Hc as [[d ->] | (type & _ & Hc)].
  - simpl. split; [apply dom_alter_L | done].
  - destruct c; try done; simpl; (split; [done |]); apply dom_alter_L.
Qed.

Lemma layer_command_keeps_sources t c :
  (∃ type, type ∈ types ∧ layer_command (buildLayerId t type) c) → keeps_sources c.
Proof. intros (type & _ & Hc). by destruct c. Qed.

(** C10: in an update that changes [data], [setData] is called on whatever
    [getSource] returns for the id of the binding.  If the source is
    registered, [setData] is the first command of the update; if it is not,
    the update raises a [TypeError] at once and nothing has been issued. *)
Theorem setData_needs_registered_source
    (du : option obj → option obj → outcome obj)
    (next : Props) (s : state) (m : MapboxMap) :
  context_map s = Some m →
  data next ≠ data (props (this s)) →
  (getSource m (id (this s)) = None →
   componentWillReceiveProps du next s = (Throw TypeError, s)) ∧
  (∀ src, getSource m (id (this s)) = Some src →
   ∃ cs, calls (componentWillReceiveProps du next s).2
         = calls s ++ SetData (id (this s)) (data next) :: cs).
Proof.
  intros Hm Hd. split.
  - intros Hsrc. by eapply receiveProps_no_source.
  - intros src Hsrc.
    destruct (receiveProps_new_data du next s m src Hd Hm Hsrc)
      as (s1 & -> & Hc1 & _).
    destruct (update_loop_evolves du (this s) next
                (filter_changed (props (this s)) next) s1)
      as (_ & _ & cs & _ & Hc & _).
    exists cs. by rewrite Hc, Hc1, <- app_assoc.
Qed.

Lemma setData_needs_registered_source_witness :
  context_map example_reset = Some empty_map ∧
  data new_data_props ≠ data (props (this example_reset)) ∧
  (getSource empty_map (id (this example_reset)) = None →
   componentWillReceiveProps diff_raises new_data_props example_reset
   = (Throw TypeError, example_reset)) ∧
  (∀ src, getSource empty_map (id (this example_reset)) = Some src →
   ∃ cs, calls (componentWillReceiveProps diff_raises new_data_props example_reset).2
         = calls example_reset
           ++ SetData (id (this example_reset)) (data new_data_props) :: cs).
Proof.
  assert (context_map example_reset = Some empty_map) as H1 by reflexivity.
  assert (data new_data_props ≠ data (props (this example_reset))) as H2
    by (vm_compute; intros H; discriminate H).
  split; [exact H1 |]. split; [exact H2 |].
  exact (setData_needs_registered_source diff_raises new_data_props
           example_reset empty_map H1 H2).
Defined.

(** C5: in an update that changes [data] while the source is registered,
    the first command is [setData] with the new payload; no later command
    of the update is a [setData], an [addSource], a [removeSource], an
    [addLayer] or a [removeLayer].  Afterwards the source is the one that
    was registered, with the new payload, and the same source ids and layer
    ids are registered as before.  This holds however the update ends. *)
Theorem data_update_in_place
    (du : option obj → option obj → outcome obj)
    (next : Props) (s : state) (m : MapboxMap) (src : Sources) :
  context_map s = Some m →
  getSource m (id (this s)) = Some src →
  data next ≠ data (props (this s)) →
  ∃ cs m',
    calls (componentWillReceiveProps du next s).2
    = calls s ++ SetData (id (this s)) (data next) :: cs ∧
    Forall (λ c, structural c = false ∧ ∀ i d, c ≠ SetData i d) cs ∧
    context_map (componentWillReceiveProps du next s).2 = Some m' ∧
    getSource m' (id (this s)) = Some (set_data (data next) src) ∧
    dom (map_sources m') = dom (map_sources m) ∧
    dom (map_layers m') = dom (map_layers m).
Proof.
  intros Hm Hsrc Hd.
  destruct (receiveProps_new_data du next s m src Hd Hm Hsrc)
    as (s1 & -> & Hc1 & Hm1 & _).
  destruct (update_loop_evolves du (this s) next
              (filter_changed (props (this s)) next) s1)
    as (_ & _ & cs & Hcs & Hc & Hm').
  exists cs, (apply_calls cs (apply_call (SetData (id (this s)) (data next)) m)).
  split; [by rewrite Hc, Hc1, <- app_assoc |].
  split.
  { eapply Forall_impl; [exact Hcs |]. intros c (type & _ & Hl).
    destruct c; try done. }
  split; [by rewrite Hm', Hm1 |].
  assert (Forall (update_call (this s)) cs) as Hupd.
  { eapply Forall_impl; [exact Hcs |]. intros c. apply update_call_loop. }
  destruct (update_call_frame (this s) cs
              (apply_call (SetData (id (this s)) (data next)) m) Hupd) as [Hds Hdl].
  split; [| split].
  - unfold getSource. rewrite keeps_sources_apply.
    + simpl. rewrite lookup_alter_eq. unfold getSource in Hsrc. by rewrite Hsrc.
    + eapply Forall_impl; [exact Hcs |]. intros c. apply layer_command_keeps_sources.
  - rewrite Hds. simpl. apply dom_alter_L.
  - by rewrite Hdl.
Qed.

Lemma data_update_in_place_witness :
  context_map example_mounted = Some example_map ∧
  getSource example_map (id (this example_mounted)) = Some example_source ∧
  data new_data_props ≠ data (props (this example_mounted)) ∧
  ∃ cs m',
    calls (componentWillReceiveProps diff_raises new_data_props example_mounted).2
    = calls example_mounted
      ++ SetData (id (this example_mounted)) (data new_data_props) :: cs ∧
    Forall (λ c, structural c = false ∧ ∀ i d, c ≠ SetData i d) cs ∧
    context_map (componentWillReceiveProps diff_raises new_data_props example_mounted).2
    = Some m' ∧
    getSource m' (id (this example_mounted))
    = Some (set_data (data new_data_props) example_source) ∧
    dom (map_sources m') = dom (map_sources example_map) ∧
    dom (map_layers m') = dom (map_layers example_map).
Proof.
  assert (context_map example_mounted = Some example_map) as H1
    by (vm_compute; reflexivity).
  assert (getSource example_map (id (this example_mounted)) = Some example_source)
    as H2 by (vm_compute; reflexivity).
  assert (data new_data_props ≠ data (props (this example_mounted))) as H3
    by (vm_compute; intros H; discriminate H).
  split; [exact H1 |]. split; [exact H2 |]. split; [exact H3 |].
  exact (data_update_in_place diff_raises new_data_props example_mounted
           example_map example_source H1 H2 H3).
Defined.


(** ** Counting the commands of an update *)

Lemma occurrences_app c cs1 cs2 :
  occurrences c (cs1 ++ cs2) = occurrences c cs1 + occurrences c cs2.
Proof. unfold occurrences. by rewrite filter_app, length_app. Qed.

Lemma occurrences_none (P : call → Prop) c cs :
  Forall P cs → ¬ P c → occurrences c cs = 0.
Proof.
  intros H Hc. unfold occurrences.
  induction H as [| c' cs Hc' _ IH]; [done |].
  rewrite filter_cons. destruct (decide (c' = c)) as [-> | _]; [done | exact IH].
Qed.


Lemma buildLayerId_inj t : Inj (=) (=) (buildLayerId t).
Proof.
  intros a b. unfold buildLayerId.
  induction (id t) as [| ch i IH]; simpl; intros H.
  - by injection H.
  - injection H as H. by apply IH.
Qed.

Lemma NoDup_types : NoDup types.
Proof. apply (bool_decide_unpack _). vm_compute. reflexivity. Qed.













(** The end-to-end example of the spec: the one command of that update. *)
Example repaint_calls :
  calls example_repainted
  = calls example_mounted ++ [SetPaintProperty "g-line" "line-color" (VStr "#fff")].
Proof. vm_compute. reflexivity. Qed.

(** ** The filter of an update *)







(** The five filter updates of that example, one per layer, in the order of
    [types]. *)
Example refilter_calls :
  calls refiltered
  = calls filtered_mounted
    ++ [ SetFilter "g-symbol" path_filter; SetFilter "g-line" path_filter;
         SetFilter "g-fill" path_filter; SetFilter "g-fill-extrusion" path_filter;
         SetFilter "g-circle" path_filter ].
Proof. vm_compute. reflexivity. Qed.

(** * Further properties of the binding *)

(** ** Property names *)



(** The names computed from [types], [toCamelCase] and [eventToHandler] are
    pairwise distinct and are exactly the props the five interfaces
    declare. *)
Theorem computed_props_declared :
  NoDup computed_props ∧ ∀ name, name ∈ computed_props ↔ name ∈ declared_props.
Proof.
  split.
  - apply (bool_decide_unpack _). vm_compute. reflexivity.
  - assert (computed_props ⊆ declared_props ∧ declared_props ⊆ computed_props)
      as [H1 H2].
    { split; apply (bool_decide_unpack _); vm_compute; reflexivity. }
    intros name. split; [apply H1 | apply H2].
Qed.

(** ** The instance at construction *)

(** The id of a new instance is never empty: it is the [id] prop when that
    is a non-empty string, and ["geojson-"] followed by the generated id
    when the prop is absent or empty. *)
Theorem new_GeoJSONLayer_id (p : Props) (uid : string) :
  id (new_GeoJSONLayer p uid) ≠ "" ∧
  (∀ i, id_prop p = Some i → i ≠ "" → id (new_GeoJSONLayer p uid) = i) ∧
  (id_prop p = None ∨ id_prop p = Some "" →
   id (new_GeoJSONLayer p uid) = "geojson-" +:+ uid).
Proof.
  unfold new_GeoJSONLayer. cbn [id]. split; [| split].
  - destruct (id_prop p) as [i |]; [| done].
    case_bool_decide; [done | done].
  - intros i -> Hi. by rewrite bool_decide_eq_false_2.
  - intros [-> | ->]; [done |]. by rewrite bool_decide_eq_true_2.
Qed.

(** The source descriptor, at construction and after a data update: its
    payload is always the [data] prop, whatever [sourceOptions] holds under
    that key; its type is the one of [sourceOptions] if there is one and
    ["geojson"] otherwise; every other key of [sourceOptions] is kept. *)
Theorem sourceDescriptor_fields (so : option obj) (d : SourceOptionData) :
  source_data (sourceDescriptor so d) = d ∧
  source_fields (sourceDescriptor so d) !! "data" = None ∧
  source_fields (sourceDescriptor so d) !! "type"
  = Some (default (VStr "geojson") (so ≫= lookup "type")) ∧
  ∀ key, key ≠ "type" → key ≠ "data" →
         source_fields (sourceDescriptor so d) !! key = so ≫= lookup key.
Proof.
  unfold sourceDescriptor. cbn [source_data source_fields].
  split; [done |]. split; [apply lookup_delete_eq |]. split.
  - rewrite lookup_delete_ne by done. rewrite lookup_union.
    rewrite lookup_singleton_eq.
    destruct so as [o |]; simpl; [| by rewrite lookup_empty].
    by destruct (o !! "type").
  - intros key Ht Hd. rewrite lookup_delete_ne by done. rewrite lookup_union.
    rewrite lookup_singleton_ne by done.
    destruct so as [o |]; simpl; [| by rewrite lookup_empty].
    by destruct (o !! key).
Qed.

(** ** A context without map *)

(** With no map in the context, mount, the style-change handler and an
    update that changes [data] raise a [TypeError] before anything is
    recorded or issued: only unmount guards against a missing map. *)
Theorem no_map_raises
    (du : option obj → option obj → outcome obj) (next : Props) (s : state) :
  context_map s = None →
  componentWillMount s = (Throw TypeError, s) ∧
  onStyleDataChange s = (Throw TypeError, s) ∧
  (data next ≠ data (props (this s)) →
   componentWillReceiveProps du next s = (Throw TypeError, s)).
Proof.
  intros Hm. split; [| split].
  - unfold componentWillMount, initialize, mbind, M_bind, get_this, map_call.
    by rewrite Hm.
  - unfold onStyleDataChange, mbind, M_bind, get_this, map_read. by rewrite Hm.
  - intros Hd. unfold componentWillReceiveProps.
    erewrite bind_run; [| reflexivity].
    rewrite bool_decide_eq_true_2 by done.
    unfold mbind, M_bind, when, map_read. by rewrite Hm.
Qed.

Lemma no_map_raises_witness :
  context_map (on_map None example_mounted) = None ∧
  componentWillMount (on_map None example_mounted)
  = (Throw TypeError, on_map None example_mounted) ∧
  onStyleDataChange (on_map None example_mounted)
  = (Throw TypeError, on_map None example_mounted) ∧
  (data new_data_props ≠ data (props (this (on_map None example_mounted))) →
   componentWillReceiveProps diff_raises new_data_props (on_map None example_mounted)
   = (Throw TypeError, on_map None example_mounted)).
Proof.
  assert (context_map (on_map None example_mounted) = None) as H by reflexivity.
  split; [exact H |].
  exact (no_map_raises diff_raises new_data_props (on_map None example_mounted) H).
Defined.

(** ** What mount and unmount register *)

Lemma apply_calls_cons c cs m :
  apply_calls (c :: cs) m = apply_calls cs (apply_call c m).
Proof. reflexivity. Qed.

Lemma adds_only_keeps_registered cs m k x :
  Forall adds_only cs → map_layers m !! k = Some x →
  map_layers (apply_calls cs m) !! k = Some x.
Proof.
  intros H. revert m. induction H as [| c cs Hc _ IH]; intros m Hk; [done |].
  rewrite apply_calls_cons. apply IH. destruct c; try done. simpl.
  destruct (map_layers m !! layer_id l) eqn:Hl; [done |]. simpl.
  rewrite lookup_insert_ne; [done |]. intros Heq. congruence.
Qed.

Lemma adds_only_other cs m k :
  Forall adds_only cs →
  (∀ l b, AddLayer l b ∈ cs → layer_id l ≠ k) →
  map_layers (apply_calls cs m) !! k = map_layers m !! k.
Proof.
  intros H. revert m. induction H as [| c cs Hc _ IH]; intros m Hk; [done |].
  rewrite apply_calls_cons, IH by (intros l b Hin; apply (Hk l b); by right).
  destruct c; try done. simpl.
  destruct (map_layers m !! layer_id l) eqn:Hl; [done |]. simpl.
  apply lookup_insert_ne. apply (Hk l before0). by left.
Qed.

Lemma adds_only_added cs m l b :
  Forall adds_only cs → AddLayer l b ∈ cs →
  is_Some (map_layers (apply_calls cs m) !! layer_id l).
Proof.
  intros H. revert m. induction H as [| c cs Hc Hcs IH]; intros m Hin.
  - by apply elem_of_nil in Hin.
  - rewrite apply_calls_cons. apply elem_of_cons in Hin as [<- | Hin]; [| by apply IH].
    simpl. destruct (map_layers m !! layer_id l) as [x |] eqn:Hl.
    + exists x. by apply adds_only_keeps_registered.
    + exists l. apply adds_only_keeps_registered; [done |]. simpl.
      apply lookup_insert_eq.
Qed.

Lemma adds_only_fresh cs m l b :
  Forall adds_only cs →
  map_layers m !! layer_id l = None →
  AddLayer l b ∈ cs →
  (∀ l' b', AddLayer l' b' ∈ cs → layer_id l' = layer_id l → l' = l) →
  map_layers (apply_calls cs m) !! layer_id l = Some l.
Proof.
  intros H. revert m. induction H as [| c cs Hc Hcs IH]; intros m Hnone Hin Huniq.
  - by apply elem_of_nil in Hin.
  - rewrite apply_calls_cons.
    assert (∀ l' b', AddLayer l' b' ∈ cs → layer_id l' = layer_id l → l' = l)
      as Huniq' by (intros l' b' Hin'; apply (Huniq l' b'); by right).
    destruct c as [| | | l' b' | | | | | | | | | |];
      try (apply elem_of_cons in Hin as [[=] | Hin]; by apply IH).
    destruct (decide (layer_id l' = layer_id l)) as [Hid | Hid].
    + assert (l' = l) as -> by (apply (Huniq l' b'); [by left | done]).
      apply adds_only_keeps_registered; [done |]. simpl. rewrite Hnone. simpl.
      apply lookup_insert_eq.
    + apply elem_of_cons in Hin as [[= Heq _] | Hin]; [by subst |].
      apply IH; [| done | done]. simpl.
      destruct (map_layers m !! layer_id l') eqn:Hl'; [done |]. simpl.
      by rewrite lookup_insert_ne.
Qed.

Lemma initialize_calls_adds_only t : Forall adds_only (initialize_calls t).
Proof.
  constructor; [done |]. apply Forall_forall. intros c Hc.
  apply list_elem_of_bind in Hc as (type & Hc & _).
  unfold layer_calls in Hc. apply elem_of_cons in Hc as [-> | Hc]; [done |].
  unfold on_calls in Hc. apply list_elem_of_bind in Hc as ([event suffix] & Hc & _).
  destruct (handlers (props t) !! _); [| by apply elem_of_nil in Hc].
  by apply list_elem_of_singleton in Hc as ->.
Qed.

Lemma initialize_calls_addLayer t l b :
  AddLayer l b ∈ initialize_calls t ↔
  ∃ type, type ∈ types ∧ l = created_layer t type ∧ b = before (props t).
Proof.
  unfold initialize_calls. rewrite elem_of_cons, list_elem_of_bind. split.
  - intros [[=] | (type & Hc & Htype)]. exists type. split; [done |].
    unfold layer_calls in Hc. apply elem_of_cons in Hc as [[= -> ->] | Hc]; [done |].
    unfold on_calls in Hc. apply list_elem_of_bind in Hc as ([event suffix] & Hc & _).
    destruct (handlers (props t) !! _); [| by apply elem_of_nil in Hc].
    by apply list_elem_of_singleton in Hc.
  - intros (type & Htype & -> & ->). right. exists type. split; [| done].
    unfold layer_calls. by left.
Qed.

Lemma initialize_calls_sources t m :
  map_sources (apply_calls (initialize_calls t) m)
  = <[id t := source t]> (map_sources m).
Proof.
  unfold initialize_calls. rewrite apply_calls_cons.
  rewrite keeps_sources_apply by apply layer_calls_keep_sources. done.
Qed.

Lemma created_layer_id t type :
  layerOptions (props t) ≫= lo_id = None →
  layer_id (created_layer t type) = buildLayerId t type.
Proof.
  unfold created_layer, spread.
  destruct (layerOptions (props t)) as [o |]; simpl; [| done]. by intros ->.
Qed.

(** What [initialize] does to the registered layers when [layerOptions]
    carries no id. *)
Lemma initialize_calls_layers t m :
  layerOptions (props t) ≫= lo_id = None →
  (∀ type, type ∈ types →
     is_Some (map_layers (apply_calls (initialize_calls t) m) !! buildLayerId t type)) ∧
  (∀ type, type ∈ types → map_layers m !! buildLayerId t type = None →
     map_layers (apply_calls (initialize_calls t) m) !! buildLayerId t type
     = Some (created_layer t type)) ∧
  (∀ k, (∀ type, type ∈ types → k ≠ buildLayerId t type) →
     map_layers (apply_calls (initialize_calls t) m) !! k = map_layers m !! k) ∧
  (∀ k x, map_layers m !! k = Some x →
     map_layers (apply_calls (initialize_calls t) m) !! k = Some x).
Proof.
  intros Hid. pose proof (initialize_calls_adds_only t) as Hadd.
  split; [| split; [| split]].
  - intros type Htype. rewrite <- (created_layer_id t type Hid).
    apply (adds_only_added _ _ _ (before (props t))); [done |].
    apply initialize_calls_addLayer. eauto.
  - intros type Htype Hfree. rewrite <- (created_layer_id t type Hid) in *.
    apply (adds_only_fresh _ _ _ (before (props t))); [done | done | |].
    + apply initialize_calls_addLayer. eauto.
    + intros l' b' (type' & Htype' & -> & _)%initialize_calls_addLayer Heq.
      rewrite !created_layer_id in Heq by done.
      by apply buildLayerId_inj in Heq as ->.
  - intros k Hk. apply adds_only_other; [done |].
    intros l b (type & Htype & -> & _)%initialize_calls_addLayer.
    rewrite created_layer_id by done. intros <-. by apply (Hk type).
  - intros k x. by apply adds_only_keeps_registered.
Qed.

Lemma apply_calls_has_style cs m : has_style (apply_calls cs m) = has_style m.
Proof.
  revert m. induction cs as [| c cs IH]; intros m; [done |].
  rewrite apply_calls_cons, IH. destruct c; try done. simpl.
  by destruct (map_layers m !! _).
Qed.

Lemma componentWillMount_map s m :
  context_map s = Some m →
  ∃ s' m',
    componentWillMount s = (Ret tt, s') ∧
    context_map s' = Some m' ∧
    this s' = this (evolve s (buildLayerId (this s) <$> types) []) ∧
    has_style m' = has_style m ∧
    map_sources m' = <[id (this s) := source (this s)]> (map_sources m) ∧
    map_layers m' = map_layers (apply_calls (initialize_calls (this s)) m).
Proof.
  intros Hm. eexists _, _.
  split; [apply componentWillMount_run; by rewrite Hm |].
  split; [by apply context_map_evolve |].
  split; [done |].
  change ([AddSource (id (this s)) (source (this s))]
            ++ (type ← types; layer_calls (this s) type) ++ [OnStyleData])
    with (initialize_calls (this s) ++ [OnStyleData]).
  split; [apply apply_calls_has_style |].
  rewrite apply_calls_app.
  change (apply_calls [OnStyleData] ?m0) with m0.
  split; [apply initialize_calls_sources | done].
Qed.

(** Mount on a live map returns normally.  Afterwards the source of the
    binding is registered with the descriptor of the instance, [layerIds]
    has the five derived ids appended in the order of [types], and, when
    [layerOptions] carries no id, a layer is registered under each derived
    id. *)
Theorem mount_registers (s : state) (m : MapboxMap) :
  context_map s = Some m →
  ∃ s' m',
    componentWillMount s = (Ret tt, s') ∧
    context_map s' = Some m' ∧
    layerIds (this s') = layerIds (this s) ++ (buildLayerId (this s) <$> types) ∧
    getSource m' (id (this s)) = Some (source (this s)) ∧
    (layerOptions (props (this s)) ≫= lo_id = None →
     ∀ type, type ∈ types → is_Some (getLayer m' (buildLayerId (this s) type))).
Proof.
  intros Hm.
  destruct (componentWillMount_map s m Hm) as (s' & m' & Hrun & Hm' & Hthis & _ & Hsrc & Hlay).
  exists s', m'. split; [done |]. split; [done |].
  split; [by rewrite Hthis |].
  split; [unfold getSource; rewrite Hsrc; apply lookup_insert_eq |].
  intros Hid type Htype. unfold getLayer. rewrite Hlay.
  by apply initialize_calls_layers.
Qed.

Lemma mount_registers_witness :
  context_map example_initial = Some empty_map ∧
  ∃ s' m',
    componentWillMount example_initial = (Ret tt, s') ∧
    context_map s' = Some m' ∧
    layerIds (this s')
    = layerIds (this example_initial)
      ++ (buildLayerId (this example_initial) <$> types) ∧
    getSource m' (id (this example_initial)) = Some (source (this example_initial)) ∧
    (layerOptions (props (this example_initial)) ≫= lo_id = None →
     ∀ type, type ∈ types →
             is_Some (getLayer m' (buildLayerId (this example_initial) type))).
Proof.
  assert (context_map example_initial = Some empty_map) as H by reflexivity.
  split; [exact H |].
  exact (mount_registers example_initial empty_map H).
Defined.

(** Mount touches nothing but its own: every other source stays as it is,
    and so does every layer that is not under one of the five derived ids;
    a layer already registered under a derived id is not replaced either.
    A derived id that was free gets the layer of its type: its id, the id of
    the binding as source, the type, and the paint prop of the type or the
    empty object (here without [layerOptions]). *)
Theorem mount_frame (s : state) (m : MapboxMap) :
  context_map s = Some m →
  layerOptions (props (this s)) = None →
  ∃ s' m',
    componentWillMount s = (Ret tt, s') ∧
    context_map s' = Some m' ∧
    getStyle m' = getStyle m ∧
    (∀ i, i ≠ id (this s) → getSource m' i = getSource m i) ∧
    (∀ k, (∀ type, type ∈ types → k ≠ buildLayerId (this s) type) →
          getLayer m' k = getLayer m k) ∧
    (∀ k l, getLayer m k = Some l → getLayer m' k = Some l) ∧
    (∀ type, type ∈ types → getLayer m (buildLayerId (this s) type) = None →
       ∃ l, getLayer m' (buildLayerId (this s) type) = Some l ∧
            layer_id l = buildLayerId (this s) type ∧
            layer_source l = id (this s) ∧
            layer_type l = type ∧
            layer_paint l
            = default ∅ (paints (props (this s)) !! (toCamelCase type +:+ "Paint")) ∧
            layer_filter l = None).
Proof.
  intros Hm Hlo.
  assert (layerOptions (props (this s)) ≫= lo_id = None) as Hid by (by rewrite Hlo).
  destruct (componentWillMount_map s m Hm)
    as (s' & m' & Hrun & Hm' & _ & Hstyle & Hsrc & Hlay).
  destruct (initialize_calls_layers (this s) m Hid) as (_ & Hfresh & Hother & Hkeep).
  exists s', m'. split; [done |]. split; [done |]. split; [done |].
  unfold getSource, getLayer. rewrite Hsrc, Hlay.
  split; [intros i Hi; by rewrite lookup_insert_ne |].
  split; [done |]. split; [done |].
  intros type Htype Hfree. exists (created_layer (this s) type).
  split; [by apply Hfresh |].
  unfold created_layer. rewrite Hlo. done.
Qed.

Lemma mount_frame_witness :
  context_map example_initial = Some empty_map ∧
  layerOptions (props (this example_initial)) = None ∧
  ∃ s' m',
    componentWillMount example_initial = (Ret tt, s') ∧
    context_map s' = Some m' ∧
    getStyle m' = getStyle empty_map ∧
    (∀ i, i ≠ id (this example_initial) → getSource m' i = getSource empty_map i) ∧
    (∀ k, (∀ type, type ∈ types → k ≠ buildLayerId (this example_initial) type) →
          getLayer m' k = getLayer empty_map k) ∧
    (∀ k l, getLayer empty_map k = Some l → getLayer m' k = Some l) ∧
    (∀ type, type ∈ types →
       getLayer empty_map (buildLayerId (this example_initial) type) = None →
       ∃ l, getLayer m' (buildLayerId (this example_initial) type) = Some l ∧
            layer_id l = buildLayerId (this example_initial) type ∧
            layer_source l = id (this example_initial) ∧
            layer_type l = type ∧
            layer_paint l
            = default ∅ (paints (props (this example_initial))
                         !! (toCamelCase type +:+ "Paint")) ∧
            layer_filter l = None).
Proof.
  assert (context_map example_initial = Some empty_map) as H1 by reflexivity.
  assert (layerOptions (props (this example_initial)) = None) as H2 by reflexivity.
  split; [exact H1 |]. split; [exact H2 |].
  exact (mount_frame example_initial empty_map H1 H2).
Defined.

Lemma off_calls_keep_sources t : Forall keeps_sources (off_calls t).
Proof.
  apply Forall_forall. intros c Hc. unfold off_calls in Hc.
  apply list_elem_of_bind in Hc as (type & Hc & _).
  apply list_elem_of_bind in Hc as ([event suffix] & Hc & _).
  destruct (handlers (props t) !! _); [| by apply elem_of_nil in Hc].
  by apply list_elem_of_singleton in Hc as ->.
Qed.

Lemma remove_layers_sources ids m :
  map_sources (apply_calls (RemoveLayer <$> ids) m) = map_sources m.
Proof.
  apply keeps_sources_apply, Forall_forall.
  intros c (lId & -> & _)%list_elem_of_fmap. done.
Qed.

Lemma remove_layers_lookup ids m k :
  map_layers (apply_calls (RemoveLayer <$> ids) m) !! k
  = if bool_decide (k ∈ ids) then None else map_layers m !! k.
Proof.
  revert m. induction ids as [| lId ids IH]; intros m; [done |].
  rewrite fmap_cons, apply_calls_cons, IH. simpl.
  destruct (decide (k ∈ ids)) as [Hin | Hin].
  - rewrite !bool_decide_eq_true_2; [done | by right | done].
  - rewrite (bool_decide_eq_false_2 (k ∈ ids)) by done.
    destruct (decide (k = lId)) as [-> | Hne].
    + rewrite bool_decide_eq_true_2 by (by left). apply lookup_delete_eq.
    + rewrite bool_decide_eq_false_2 by (intros [? | ?]%elem_of_cons; done).
      by apply lookup_delete_ne.
Qed.

(** The map an unmount leaves, when the map and its style are there. *)
Lemma componentWillUnmount_map s m :
  context_map s = Some m → getStyle m = true →
  ∃ s' m',
    componentWillUnmount s = (Ret tt, s') ∧
    context_map s' = Some m' ∧
    this s' = this s ∧
    has_style m' = has_style m ∧
    map_sources m' = delete (id (this s)) (map_sources m) ∧
    ∀ k, map_layers m' !! k
         = if bool_decide (k ∈ layerIds (this s)) then None else map_layers m !! k.
Proof.
  intros Hm Hstyle.
  assert (componentWillUnmount s
          = (Ret tt, evolve s [] (OffStyleData :: unbind_calls (this s) m))) as Hrun.
  { unfold componentWillUnmount. erewrite bind_run; [| reflexivity].
    rewrite Hm, Hstyle. simpl.
    erewrite bind_run; [| apply map_call_run; by rewrite Hm].
    erewrite unbind_run; [| simpl; by rewrite Hm].
    by rewrite evolve_evolve, this_evolve_nil. }
  eexists _, _. split; [exact Hrun |].
  split; [by apply context_map_evolve |].
  split; [apply this_evolve_nil |].
  split; [apply apply_calls_has_style |].
  rewrite apply_calls_cons. change (apply_call OffStyleData m) with m.
  unfold unbind_calls. rewrite !apply_calls_app. split.
  - rewrite remove_layers_sources.
    rewrite keeps_sources_apply by apply off_calls_keep_sources.
    unfold getSource. destruct (map_sources m !! id (this s)) as [src |] eqn:Hsrc.
    + by rewrite bool_decide_eq_true_2.
    + rewrite bool_decide_eq_false_2 by (by intros [? ?]).
      simpl. by rewrite delete_id.
  - intros k. rewrite remove_layers_lookup.
    rewrite keeps_layers_apply by apply off_calls_keep_layers.
    rewrite keeps_layers_apply
      by (destruct (bool_decide _); by repeat constructor).
    destruct (removed_spec (map_layers m) (layerIds (this s))) as [_ Hrem].
    destruct (decide (k ∈ layerIds (this s))) as [Hin | Hin].
    + rewrite (bool_decide_eq_true_2 (k ∈ layerIds (this s))) by done.
      destruct (map_layers m !! k) as [l |] eqn:Hk.
      * rewrite bool_decide_eq_true_2; [done |]. apply Hrem. split; [done | by eexists].
      * by destruct (bool_decide _).
    + rewrite !bool_decide_eq_false_2; [done | done |].
      intros [? _]%Hrem. done.
Qed.

(** Unmount, with the map and its style there, returns normally and leaves
    the source of the binding and every id of [layerIds] unregistered, and
    every other source and layer as it was.  The instance itself is left as
    it is, [layerIds] included. *)
Theorem unmount_unregisters (s : state) (m : MapboxMap) :
  context_map s = Some m → getStyle m = true →
  ∃ s' m',
    componentWillUnmount s = (Ret tt, s') ∧
    context_map s' = Some m' ∧
    this s' = this s ∧
    getSource m' (id (this s)) = None ∧
    (∀ i, i ≠ id (this s) → getSource m' i = getSource m i) ∧
    (∀ lId, lId ∈ layerIds (this s) → getLayer m' lId = None) ∧
    (∀ k, k ∉ layerIds (this s) → getLayer m' k = getLayer m k).
Proof.
  intros Hm Hstyle.
  destruct (componentWillUnmount_map s m Hm Hstyle)
    as (s' & m' & Hrun & Hm' & Hthis & _ & Hsrc & Hlay).
  exists s', m'. split; [done |]. split; [done |]. split; [done |].
  unfold getSource, getLayer. rewrite Hsrc.
  split; [apply lookup_delete_eq |].
  split; [intros i Hi; by apply lookup_delete_ne |].
  split.
  - intros lId Hin. by rewrite Hlay, bool_decide_eq_true_2.
  - intros k Hk. by rewrite Hlay, bool_decide_eq_false_2.
Qed.

Lemma unmount_unregisters_witness :
  context_map example_mounted = Some example_map ∧
  getStyle example_map = true ∧
  ∃ s' m',
    componentWillUnmount example_mounted = (Ret tt, s') ∧
    context_map s' = Some m' ∧
    this s' = this example_mounted ∧
    getSource m' (id (this example_mounted)) = None ∧
    (∀ i, i ≠ id (this example_mounted) → getSource m' i = getSource example_map i) ∧
    (∀ lId, lId ∈ layerIds (this example_mounted) → getLayer m' lId = None) ∧
    (∀ k, k ∉ layerIds (this example_mounted) → getLayer m' k = getLayer example_map k).
Proof.
  assert (context_map example_mounted = Some example_map) as H1
    by (vm_compute; reflexivity).
  assert (getStyle example_map = true) as H2 by (vm_compute; reflexivity).
  split; [exact H1 |]. split; [exact H2 |].
  exact (unmount_unregisters example_mounted example_map H1 H2).
Defined.

(** Mount followed by unmount is a round trip on the map: for an instance
    that has created nothing yet, without an id in [layerOptions], on a map
    with a style where the id of the binding and its five layer ids are
    free, both return normally and the map is again exactly what it was. *)
Theorem mount_unmount_round_trip (s : state) (m : MapboxMap) :
  context_map s = Some m → getStyle m = true →
  layerIds (this s) = [] →
  layerOptions (props (this s)) ≫= lo_id = None →
  getSource m (id (this s)) = None →
  (∀ type, type ∈ types → getLayer m (buildLayerId (this s) type) = None) →
  ∃ s1 s2,
    componentWillMount s = (Ret tt, s1) ∧
    componentWillUnmount s1 = (Ret tt, s2) ∧
    context_map s2 = Some m.
Proof.
  intros Hm Hstyle Hids Hid Hsrc Hfree.
  destruct (componentWillMount_map s m Hm)
    as (s1 & m1 & Hrun1 & Hm1 & Hthis1 & Hstyle1 & Hsrc1 & Hlay1).
  destruct (initialize_calls_layers (this s) m Hid) as (_ & _ & Hother & _).
  assert (getStyle m1 = true) as Hstyle1'
    by (unfold getStyle in Hstyle |- *; congruence).
  destruct (componentWillUnmount_map s1 m1 Hm1 Hstyle1')
    as (s2 & m2 & Hrun2 & Hm2 & _ & Hstyle2 & Hsrc2 & Hlay2).
  exists s1, s2. split; [done |]. split; [done |].
  rewrite Hm2. f_equal.
  assert (id (this s1) = id (this s)) as Hid1 by (by rewrite Hthis1).
  assert (layerIds (this s1) = buildLayerId (this s) <$> types) as Hids1.
  { rewrite Hthis1. simpl. by rewrite Hids. }
  assert (map_sources m2 = map_sources m) as Hs.
  { rewrite Hsrc2, Hsrc1, Hid1, delete_insert_eq. by apply delete_id. }
  assert (map_layers m2 = map_layers m) as Hl.
  { apply map_eq. intros k. rewrite Hlay2, Hids1, Hlay1.
    destruct (decide (k ∈ buildLayerId (this s) <$> types)) as [Hin | Hin].
    - rewrite bool_decide_eq_true_2 by done.
      apply list_elem_of_fmap in Hin as (type & -> & Htype).
      symmetry. by apply Hfree.
    - rewrite bool_decide_eq_false_2 by done. apply Hother.
      intros type Htype ->. apply Hin. by apply list_elem_of_fmap_2. }
  destruct m2, m. simpl in *. congruence.
Qed.

Lemma mount_unmount_round_trip_witness :
  context_map example_initial = Some empty_map ∧
  getStyle empty_map = true ∧
  layerIds (this example_initial) = [] ∧
  layerOptions (props (this example_initial)) ≫= lo_id = None ∧
  getSource empty_map (id (this example_initial)) = None ∧
  (∀ type, type ∈ types →
           getLayer empty_map (buildLayerId (this example_initial) type) = None) ∧
  ∃ s1 s2,
    componentWillMount example_initial = (Ret tt, s1) ∧
    componentWillUnmount s1 = (Ret tt, s2) ∧
    context_map s2 = Some empty_map.
Proof.
  assert (context_map example_initial = Some empty_map) as H1 by reflexivity.
  assert (getStyle empty_map = true) as H2 by reflexivity.
  assert (layerIds (this example_initial) = []) as H3 by reflexivity.
  assert (layerOptions (props (this example_initial)) ≫= lo_id = None) as H4
    by reflexivity.
  assert (getSource empty_map (id (this example_initial)) = None) as H5
    by reflexivity.
  assert (∀ type, type ∈ types →
            getLayer empty_map (buildLayerId (this example_initial) type) = None)
    as H6 by (intros type _; apply lookup_empty).
  split; [exact H1 |]. split; [exact H2 |]. split; [exact H3 |].
  split; [exact H4 |]. split; [exact H5 |]. split; [exact H6 |].
  exact (mount_unmount_round_trip example_initial empty_map H1 H2 H3 H4 H5 H6).
Defined.

(** ** The style-change handler on a live map *)

Lemma rebind_map s m :
  context_map s = Some m → getSource m (id (this s)) = None →
  ∃ s' m0 m',
    onStyleDataChange s = (Ret tt, s') ∧
    context_map s' = Some m' ∧
    this s' = this (evolve s (buildLayerId (this s) <$> types) []) ∧
    map_sources m' = <[id (this s) := source (this s)]> (map_sources m) ∧
    map_layers m' = map_layers (apply_calls (initialize_calls (this s)) m0) ∧
    ∀ k, map_layers m0 !! k
         = if bool_decide (k ∈ layerIds (this s)) then None else map_layers m !! k.
Proof.
  intros Hm Hsrc.
  exists (evolve s (buildLayerId (this s) <$> types)
            (off_calls (this s)
               ++ (RemoveLayer <$> removed (map_layers m) (layerIds (this s)))
               ++ [AddSource (id (this s)) (source (this s))]
               ++ (type ← types; layer_calls (this s) type)
               ++ [ForceUpdate])),
    (apply_calls (off_calls (this s)
                    ++ (RemoveLayer <$> removed (map_layers m) (layerIds (this s)))) m).
  eexists. split; [by apply rebind_run |].
  split; [by apply context_map_evolve |].
  split; [done |].
  change ([AddSource (id (this s)) (source (this s))]
            ++ (type ← types; layer_calls (this s) type) ++ [ForceUpdate])
    with (initialize_calls (this s) ++ [ForceUpdate]).
  rewrite (app_assoc (off_calls _)), (apply_calls_app (_ ++ _)).
  rewrite (apply_calls_app (initialize_calls _)).
  change (apply_calls [ForceUpdate] ?m0) with m0.
  split; [| split; [done |]].
  - rewrite initialize_calls_sources, apply_calls_app, remove_layers_sources.
    by rewrite keeps_sources_apply by apply off_calls_keep_sources.
  - intros k. rewrite apply_calls_app, remove_layers_lookup.
    rewrite keeps_layers_apply by apply off_calls_keep_layers.
    destruct (removed_spec (map_layers m) (layerIds (this s))) as [_ Hrem].
    destruct (decide (k ∈ layerIds (this s))) as [Hin | Hin].
    + rewrite (bool_decide_eq_true_2 (k ∈ layerIds (this s))) by done.
      destruct (map_layers m !! k) as [l |] eqn:Hk.
      * rewrite bool_decide_eq_true_2; [done |]. apply Hrem. split; [done | by eexists].
      * by destruct (bool_decide _).
    + rewrite !bool_decide_eq_false_2; [done | done |].
      intros [? _]%Hrem. done.
Qed.

(** What the style-change handler leaves on a live map, in either case. *)
Lemma onStyleDataChange_live s m :
  context_map s = Some m →
  ∃ s' m',
    onStyleDataChange s = (Ret tt, s') ∧
    context_map s' = Some m' ∧
    props (this s') = props (this s) ∧
    id (this s') = id (this s) ∧
    source (this s') = source (this s) ∧
    is_Some (getSource m' (id (this s))) ∧
    (layerIds (this s') = layerIds (this s) ∨
     layerIds (this s') = layerIds (this s) ++ (buildLayerId (this s) <$> types)).
Proof.
  intros Hm. destruct (getSource m (id (this s))) as [src |] eqn:Hsrc.
  - exists s, m. split.
    { unfold onStyleDataChange. erewrite bind_run; [| reflexivity].
      erewrite bind_run; [| by apply map_read_run]. by rewrite Hsrc. }
    split; [done |]. split; [done |]. split; [done |]. split; [done |].
    split; [by rewrite Hsrc | by left].
  - destruct (rebind_map s m Hm Hsrc) as (s' & m0 & m' & Hrun & Hm' & Hthis & Hs & _).
    exists s', m'. split; [done |]. split; [done |]. rewrite Hthis.
    split; [done |]. split; [done |]. split; [done |].
    split; [| by right].
    unfold getSource. rewrite Hs, lookup_insert_eq. by eexists.
Qed.

(** Answering a style change twice is answering it once: on a live map the
    handler returns normally, and run again on the state it leaves it
    changes nothing and issues nothing. *)
Theorem styledata_twice (s : state) (m : MapboxMap) :
  context_map s = Some m →
  ∃ s', onStyleDataChange s = (Ret tt, s') ∧
        onStyleDataChange s' = (Ret tt, s').
Proof.
  intros Hm.
  destruct (onStyleDataChange_live s m Hm)
    as (s' & m' & Hrun & Hm' & _ & Hid & _ & [src Hsrc] & _).
  exists s'. split; [done |].
  unfold onStyleDataChange. erewrite bind_run; [| reflexivity].
  erewrite bind_run; [| by apply map_read_run].
  by rewrite Hid, Hsrc.
Qed.

Lemma styledata_twice_witness :
  context_map example_reset = Some empty_map ∧
  ∃ s', onStyleDataChange example_reset = (Ret tt, s') ∧
        onStyleDataChange s' = (Ret tt, s').
Proof.
  assert (context_map example_reset = Some empty_map) as H by reflexivity.
  split; [exact H |].
  exact (styledata_twice example_reset empty_map H).
Defined.

(** A rebind recreates the layers from the current props: when the source
    is missing, [layerOptions] is absent and [layerIds] holds the five
    derived ids, then after the handler the source is registered with the
    descriptor of the instance and under each derived id there is a fresh
    layer of its type with the current paint prop (or the empty object),
    whatever was left under that id before.  Layers under other ids, not
    in [layerIds], are as they were. *)
Theorem rebind_recreates (s : state) (m : MapboxMap) :
  context_map s = Some m →
  getSource m (id (this s)) = None →
  layerOptions (props (this s)) = None →
  (∀ type, type ∈ types → buildLayerId (this s) type ∈ layerIds (this s)) →
  ∃ s' m',
    onStyleDataChange s = (Ret tt, s') ∧
    context_map s' = Some m' ∧
    getSource m' (id (this s)) = Some (source (this s)) ∧
    (∀ type, type ∈ types →
       ∃ l, getLayer m' (buildLayerId (this s) type) = Some l ∧
            layer_id l = buildLayerId (this s) type ∧
            layer_source l = id (this s) ∧
            layer_type l = type ∧
            layer_paint l
            = default ∅ (paints (props (this s)) !! (toCamelCase type +:+ "Paint"))) ∧
    (∀ k, k ∉ layerIds (this s) →
          (∀ type, type ∈ types → k ≠ buildLayerId (this s) type) →
          getLayer m' k = getLayer m k).
Proof.
  intros Hm Hsrc Hlo Hids.
  assert (layerOptions (props (this s)) ≫= lo_id = None) as Hid by (by rewrite Hlo).
  destruct (rebind_map s m Hm Hsrc) as (s' & m0 & m' & Hrun & Hm' & _ & Hs & Hl & Hm0).
  destruct (initialize_calls_layers (this s) m0 Hid) as (_ & Hfresh & Hother & _).
  exists s', m'. split; [done |]. split; [done |].
  unfold getSource, getLayer. rewrite Hs, Hl.
  split; [apply lookup_insert_eq |]. split.
  - intros type Htype. exists (created_layer (this s) type). split.
    + apply Hfresh; [done |]. rewrite Hm0. by rewrite bool_decide_eq_true_2 by auto.
    + unfold created_layer. rewrite Hlo. done.
  - intros k Hk Hk'. rewrite Hother by done. rewrite Hm0.
    by rewrite bool_decide_eq_false_2.
Qed.

Lemma rebind_recreates_witness :
  context_map example_reset = Some empty_map ∧
  getSource empty_map (id (this example_reset)) = None ∧
  layerOptions (props (this example_reset)) = None ∧
  (∀ type, type ∈ types →
           buildLayerId (this example_reset) type ∈ layerIds (this example_reset)) ∧
  ∃ s' m',
    onStyleDataChange example_reset = (Ret tt, s') ∧
    context_map s' = Some m' ∧
    getSource m' (id (this example_reset)) = Some (source (this example_reset)) ∧
    (∀ type, type ∈ types →
       ∃ l, getLayer m' (buildLayerId (this example_reset) type) = Some l ∧
            layer_id l = buildLayerId (this example_reset) type ∧
            layer_source l = id (this example_reset) ∧
            layer_type l = type ∧
            layer_paint l
            = default ∅ (paints (props (this example_reset))
                         !! (toCamelCase type +:+ "Paint"))) ∧
    (∀ k, k ∉ layerIds (this example_reset) →
          (∀ type, type ∈ types → k ≠ buildLayerId (this example_reset) type) →
          getLayer m' k = getLayer empty_map k).
Proof.
  assert (context_map example_reset = Some empty_map) as H1 by reflexivity.
  assert (getSource empty_map (id (this example_reset)) = None) as H2 by reflexivity.
  assert (layerOptions (props (this example_reset)) = None) as H3
    by (vm_compute; reflexivity).
  assert (∀ type, type ∈ types →
            buildLayerId (this example_reset) type ∈ layerIds (this example_reset))
    as H4.
  { assert (Forall (λ type, buildLayerId (this example_reset) type
                            ∈ layerIds (this example_reset)) types) as HF
      by (apply (bool_decide_unpack _); vm_compute; reflexivity).
    intros type. by apply (proj1 (Forall_forall _ _) HF). }
  split; [exact H1 |]. split; [exact H2 |]. split; [exact H3 |]. split; [exact H4 |].
  exact (rebind_recreates example_reset empty_map H1 H2 H3 H4).
Defined.

(** ** The log of an update *)

Lemma forEach_Ret_run {A} (l : list A) (f : A → M unit) (g : A → list call) s s' :
  (∀ x s s', x ∈ l → is_Some (context_map s) → f x s = (Ret tt, s') →
             s' = evolve s [] (g x)) →
  is_Some (context_map s) →
  forEach l f s = (Ret tt, s') →
  s' = evolve s [] (x ← l; g x).
Proof.
  revert s. induction l as [| x l IH]; intros s Hf Hs Hrun; simpl in *.
  - injection Hrun as <-. by rewrite evolve_nil.
  - apply bind_Ret_inv in Hrun as ([] & s1 & Hx & Hrun).
    apply Hf in Hx as ->; [| by left | done].
    apply IH in Hrun as ->; [| intros; eapply Hf; [by right | done | done]
                             | by apply evolve_has_map].
    by rewrite evolve_evolve.
Qed.

(** The diff step of a round, for the paint ([mk] is [setPaintProperty])
    and for the layout ([mk] is [setLayoutProperty]). *)
Lemma diff_step_run du (mk : string → value → call) (old new : option obj) s :
  is_Some (context_map s) →
  when (negb (isEqual new old))
    (d ← diff_props du old new;
     forEach (map_to_list d) (λ '(key, v), map_call (mk key v))) s
  = match diffed du old new with
    | Ret d => (Ret tt, evolve s [] ((λ kv, mk kv.1 kv.2) <$> map_to_list d))
    | Throw e => (Throw e, s)
    end.
Proof.
  intros Hs. unfold diffed. destruct (isEqual new old); cbn [negb when].
  - rewrite map_to_list_empty. simpl. by rewrite evolve_nil.
  - assert (∀ d, forEach (map_to_list d) (λ '(key, v), map_call (mk key v)) s
                 = (Ret tt, evolve s [] ((λ kv, mk kv.1 kv.2) <$> map_to_list d)))
      as Hloop.
    { intros d.
      rewrite (forEach_run _ _ (λ kv, [mk kv.1 kv.2])); [| | done].
      - do 2 f_equal.
      - intros [key v] s0 _ Hs0. by apply map_call_run. }
    unfold mbind at 1, M_bind at 1.
    destruct old as [obj1 |], new as [obj2 |]; simpl; try apply Hloop;
      (destruct (du _ _) as [d | e]; [apply Hloop | done]).
Qed.

Lemma filter_step_run next changed layerId s :
  is_Some (context_map s) →
  match layerOptions next with
  | Some n => when changed (map_call (SetFilter layerId (default [] (lo_filter n))))
  | None => mret tt
  end s
  = (Ret tt, evolve s [] (filter_calls next changed layerId)).
Proof.
  intros Hs. unfold filter_calls.
  destruct (layerOptions next) as [n |]; [| by rewrite evolve_nil].
  destruct changed; simpl; [by apply map_call_run | by rewrite evolve_nil].
Qed.

Lemma handler_step_run cur next type layerId s :
  is_Some (context_map s) →
  forEach eventToHandler (λ '(event, suffix),
    let prop := toCamelCase type +:+ suffix in
    when (bool_decide (handlers next !! prop ≠ handlers cur !! prop))
      (match handlers cur !! prop with
       | Some h => map_call (Off event layerId h)
       | None => mret tt
       end;;
       match handlers next !! prop with
       | Some h => map_call (On event layerId h)
       | None => mret tt
       end)) s
  = (Ret tt, evolve s [] (handler_calls cur next type layerId)).
Proof.
  intros Hs. apply forEach_run; [| done].
  intros [event suffix] s0 _ Hs0. cbv zeta.
  destruct (bool_decide _); cbn [when]; [| by rewrite evolve_nil].
  destruct (handlers cur !! _) as [h |], (handlers next !! _) as [h' |].
  - erewrite bind_run; [| by apply map_call_run].
    rewrite map_call_run by (by apply evolve_has_map). by rewrite evolve_evolve.
  - erewrite bind_run; [| by apply map_call_run].
    unfold mret, M_ret. by rewrite app_nil_r.
  - erewrite bind_run; [| reflexivity]. by apply map_call_run.
  - erewrite bind_run; [| reflexivity]. unfold mret, M_ret. by rewrite evolve_nil.
Qed.

Lemma move_step_run cur next layerId s :
  is_Some (context_map s) →
  when (bool_decide (before cur ≠ before next))
    (map_call (MoveLayer layerId (before next))) s
  = (Ret tt, evolve s [] (move_calls cur next layerId)).
Proof.
  intros Hs. unfold move_calls.
  destruct (bool_decide _); simpl; [by apply map_call_run | by rewrite evolve_nil].
Qed.

(** One round of [updateLayer] on a live map: it returns normally when both
    diff steps do, with the commands of [round_calls]; else it raises what
    the first failing diff step raises. *)
Lemma updateLayer_run du t next changed type s :
  is_Some (context_map s) →
  match diffed du (paints (props t) !! (toCamelCase type +:+ "Paint"))
                  (paints next !! (toCamelCase type +:+ "Paint")),
        diffed du (layouts (props t) !! (toCamelCase type +:+ "Layout"))
                  (layouts next !! (toCamelCase type +:+ "Layout"))
  with
  | Ret _, Ret _ =>
      updateLayer du t next changed type s
      = (Ret tt, evolve s [] (round_calls du t next changed type))
  | Ret _, Throw e | Throw e, _ =>
      ∃ s', updateLayer du t next changed type s = (Throw e, s')
  end.
Proof.
  intros Hs. unfold updateLayer, round_calls, diff_or_empty. cbv zeta.
  destruct (diffed du (paints (props t) !! _) _) as [dp | e] eqn:Hp.
  - destruct (diffed du (layouts (props t) !! _) _) as [dl | e] eqn:Hl.
    + erewrite bind_run; [| by apply filter_step_run].
      erewrite bind_run;
        [| rewrite diff_step_run by (by apply evolve_has_map); rewrite Hp; reflexivity].
      erewrite bind_run;
        [| rewrite diff_step_run by (by do 2 apply evolve_has_map);
           rewrite Hl; reflexivity].
      erewrite bind_run;
        [| apply handler_step_run; by do 3 apply evolve_has_map].
      rewrite move_step_run by (by do 4 apply evolve_has_map).
      rewrite !evolve_evolve. reflexivity.
    + erewrite bind_run; [| by apply filter_step_run].
      erewrite bind_run;
        [| rewrite diff_step_run by (by apply evolve_has_map); rewrite Hp; reflexivity].
      unfold mbind at 1, M_bind at 1.
      rewrite diff_step_run by (by do 2 apply evolve_has_map). rewrite Hl. eauto.
  - erewrite bind_run; [| by apply filter_step_run].
    unfold mbind at 1, M_bind at 1.
    rewrite diff_step_run by (by apply evolve_has_map). rewrite Hp. eauto.
Qed.

Lemma updateLayer_Ret du t next changed type s s' :
  is_Some (context_map s) →
  updateLayer du t next changed type s = (Ret tt, s') →
  s' = evolve s [] (round_calls du t next changed type).
Proof.
  intros Hs Hrun. pose proof (updateLayer_run du t next changed type s Hs) as H.
  destruct (diffed du (paints (props t) !! _) _) as [dp | e].
  - destruct (diffed du (layouts (props t) !! _) _) as [dl | e].
    + rewrite H in Hrun. by injection Hrun as <-.
    + destruct H as [s0 H]. rewrite H in Hrun. discriminate.
  - destruct H as [s0 H]. rewrite H in Hrun. discriminate.
Qed.

Lemma receiveProps_new_data_state du next s m src :
  data next ≠ data (props (this s)) →
  context_map s = Some m → getSource m (id (this s)) = Some src →
  componentWillReceiveProps du next s
  = forEach types
      (updateLayer du (this s) next (filter_changed (props (this s)) next))
      (set_source (sourceDescriptor (sourceOptions next) (data next))
         (evolve s [] [SetData (id (this s)) (data next)])).2.
Proof.
  intros Hd Hm Hsrc. unfold componentWillReceiveProps.
  erewrite bind_run; [| reflexivity].
  rewrite bool_decide_eq_true_2 by done.
  erewrite bind_run; [reflexivity |].
  cbn [when].
  erewrite bind_run; [| by apply map_read_run].
  rewrite Hsrc.
  erewrite bind_run; [| apply map_call_run; by rewrite Hm].
  reflexivity.
Qed.

(** The state an update leaves when it returns normally on a live map. *)
Lemma receiveProps_Ret du next s m s' :
  context_map s = Some m →
  componentWillReceiveProps du next s = (Ret tt, s') →
  calls s' = calls s ++ update_calls du (this s) next ∧
  context_map s' = Some (apply_calls (update_calls du (this s) next) m) ∧
  props (this s') = props (this s) ∧
  id (this s') = id (this s) ∧
  layerIds (this s') = layerIds (this s) ∧
  source (this s')
  = (if bool_decide (data next ≠ data (props (this s)))
     then sourceDescriptor (sourceOptions next) (data next)
     else source (this s)).
Proof.
  intros Hm Hrun. unfold update_calls.
  destruct (decide (data next = data (props (this s)))) as [Hd | Hd].
  - rewrite receiveProps_same_data in Hrun by done.
    apply (forEach_Ret_run _ _
             (round_calls du (this s) next (filter_changed (props (this s)) next)))
      in Hrun as ->.
    + rewrite bool_decide_eq_false_2 by (by intros ?).
      rewrite this_evolve_nil. cbn [calls evolve context_map].
      by rewrite Hm.
    + intros type s0 s0' _. apply updateLayer_Ret.
    + by rewrite Hm.
  - destruct (getSource m (id (this s))) as [src |] eqn:Hsrc.
    + rewrite (receiveProps_new_data_state du next s m src Hd Hm Hsrc) in Hrun.
      apply (forEach_Ret_run _ _
               (round_calls du (this s) next (filter_changed (props (this s)) next)))
        in Hrun as ->.
      * rewrite bool_decide_eq_true_2 by done.
        rewrite this_evolve_nil.
        cbn [calls evolve context_map set_source snd this props id layerIds source].
        rewrite Hm, !app_nil_r, <- app_assoc. cbn [fmap option_fmap option_map].
        by rewrite <- apply_calls_app.
      * intros type s0 s0' _. apply updateLayer_Ret.
      * cbn [set_source snd context_map evolve]. by rewrite Hm.
    + rewrite (receiveProps_no_source du next s m Hd Hm Hsrc) in Hrun. discriminate.
Qed.

(** ** Counting in the log of an update *)

Lemma occurrences_bind_zero {A} (l : list A) (g : A → list call) c :
  (∀ y, y ∈ l → occurrences c (g y) = 0) → occurrences c (y ← l; g y) = 0.
Proof.
  induction l as [| y l IH]; intros H; [done |].
  rewrite bind_cons, occurrences_app, H, IH; [done | | by left].
  intros y' Hy'. apply H. by right.
Qed.

(** In a log made block by block from a list without repetition, a command
    that only one block can hold is counted in that block. *)
Lemma occurrences_bind_one {A} (l : list A) (g : A → list call) x c :
  NoDup l → x ∈ l →
  (∀ y, y ∈ l → y ≠ x → occurrences c (g y) = 0) →
  occurrences c (y ← l; g y) = occurrences c (g x).
Proof.
  intros Hnd (l1 & l2 & ->)%list_elem_of_split Hother.
  apply NoDup_app in Hnd as (_ & H1 & H2). apply NoDup_cons in H2 as [H2 _].
  rewrite bind_app, bind_cons, !occurrences_app.
  rewrite !occurrences_bind_zero; [lia | |];
    intros y Hy; (apply Hother; [set_solver |]); intros ->; try done;
    apply (H1 x); [done | by left].
Qed.

Lemma occurrences_method (name : string) c cs :
  Forall (λ c', method c' = name) cs → method c ≠ name → occurrences c cs = 0.
Proof. intros H Hc. by eapply occurrences_none. Qed.

Lemma filter_calls_method next changed layerId :
  Forall (λ c, method c = "setFilter") (filter_calls next changed layerId).
Proof.
  unfold filter_calls. destruct (layerOptions next); [| done].
  destruct changed; by repeat constructor.
Qed.

Lemma paint_calls_method layerId d :
  Forall (λ c, method c = "setPaintProperty") (paint_calls layerId d).
Proof. apply Forall_fmap, Forall_forall. by intros [key v] _. Qed.

Lemma layout_calls_method layerId d :
  Forall (λ c, method c = "setLayoutProperty") (layout_calls layerId d).
Proof. apply Forall_fmap, Forall_forall. by intros [key v] _. Qed.

Lemma move_calls_method cur next layerId :
  Forall (λ c, method c = "moveLayer") (move_calls cur next layerId).
Proof. unfold move_calls. destruct (bool_decide _); by repeat constructor. Qed.

Lemma handler_calls_method cur next type layerId :
  Forall (λ c, method c = "on" ∨ method c = "off")
         (handler_calls cur next type layerId).
Proof.
  apply Forall_forall. intros c Hc. unfold handler_calls in Hc.
  apply list_elem_of_bind in Hc as ([event suffix] & Hc & _).
  destruct (bool_decide _); [| by apply elem_of_nil in Hc].
  apply elem_of_app in Hc as [Hc | Hc].
  - destruct (handlers cur !! _); [| by apply elem_of_nil in Hc].
    apply list_elem_of_singleton in Hc as ->. by right.
  - destruct (handlers next !! _); [| by apply elem_of_nil in Hc].
    apply list_elem_of_singleton in Hc as ->. by left.
Qed.

Lemma round_calls_layer_command du t next changed type :
  Forall (layer_command (buildLayerId t type)) (round_calls du t next changed type).
Proof.
  unfold round_calls.
  apply Forall_app; split;
    [| apply Forall_app; split;
       [| apply Forall_app; split; [| apply Forall_app; split]]].
  - unfold filter_calls. destruct (layerOptions next); [| done].
    destruct changed; by repeat constructor.
  - apply Forall_fmap, Forall_forall. by intros [key v] _.
  - apply Forall_fmap, Forall_forall. by intros [key v] _.
  - apply Forall_forall. intros c Hc. unfold handler_calls in Hc.
    apply list_elem_of_bind in Hc as ([event suffix] & Hc & _).
    destruct (bool_decide _); [| by apply elem_of_nil in Hc].
    apply elem_of_app in Hc as [Hc | Hc].
    + destruct (handlers (props t) !! _); [| by apply elem_of_nil in Hc].
      by apply list_elem_of_singleton in Hc as ->.
    + destruct (handlers next !! _); [| by apply elem_of_nil in Hc].
      by apply list_elem_of_singleton in Hc as ->.
  - unfold move_calls. destruct (bool_decide _); by repeat constructor.
Qed.

(** A command addressed to the layer id of a type is only counted in the
    round of that type. *)
Lemma update_calls_occurrences du t next type c :
  type ∈ types → layer_command (buildLayerId t type) c →
  occurrences c (update_calls du t next)
  = occurrences c (round_calls du t next (filter_changed (props t) next) type).
Proof.
  intros Htype Hc. unfold update_calls. rewrite occurrences_app.
  rewrite (occurrences_none (λ c', ∃ d, c' = SetData (id t) d)).
  - apply occurrences_bind_one; [apply NoDup_types | done |].
    intros type' _ Hne.
    eapply occurrences_none; [apply round_calls_layer_command |].
    intros Hc'. destruct c; try done; simpl in *; subst;
      by apply buildLayerId_inj in Hc'.
  - destruct (bool_decide _); repeat constructor. by eexists.
  - intros [d ->]. done.
Qed.





(** An update on a live map that returns normally moves each of the five
    layers exactly once, before the new [before] anchor, when the anchor
    changed, and issues no [moveLayer] on them when it did not. *)
Theorem before_update_calls
    (du : option obj → option obj → outcome obj)
    (next : Props) (s s' : state) (m : MapboxMap) :
  context_map s = Some m →
  componentWillReceiveProps du next s = (Ret tt, s') →
  ∃ cs, calls s' = calls s ++ cs ∧
    ∀ type, type ∈ types →
      (before next ≠ before (props (this s)) →
       occurrences (MoveLayer (buildLayerId (this s) type) (before next)) cs = 1 ∧
       ∀ b, b ≠ before next →
            occurrences (MoveLayer (buildLayerId (this s) type) b) cs = 0) ∧
      (before next = before (props (this s)) →
       ∀ b, occurrences (MoveLayer (buildLayerId (this s) type) b) cs = 0).
Proof.
  intros Hm Hrun.
  destruct (receiveProps_Ret du next s m s' Hm Hrun) as (Hcalls & _).
  eexists. split; [exact Hcalls |]. intros type Htype.
  assert (∀ b, occurrences (MoveLayer (buildLayerId (this s) type) b)
                 (update_calls du (this s) next)
               = occurrences (MoveLayer (buildLayerId (this s) type) b)
                   (move_calls (props (this s)) next (buildLayerId (this s) type)))
    as Hocc.
  { intros b. rewrite (update_calls_occurrences _ _ _ type) by done.
    unfold round_calls. rewrite !occurrences_app.
    rewrite (occurrences_method "setFilter" _ (filter_calls _ _ _))
      by (apply filter_calls_method || done).
    rewrite (occurrences_method "setPaintProperty" _ (paint_calls _ _))
      by (apply paint_calls_method || done).
    rewrite (occurrences_method "setLayoutProperty" _ (layout_calls _ _))
      by (apply layout_calls_method || done).
    rewrite (occurrences_none _ _ _ (handler_calls_method _ _ _ _))
      by (by intros [? | ?]).
    by rewrite !Nat.add_0_l. }
  unfold move_calls in Hocc. split.
  - intros Hne. rewrite bool_decide_eq_true_2 in Hocc by congruence. split.
    + rewrite Hocc. unfold occurrences. rewrite filter_cons, filter_nil.
      by rewrite decide_True.
    + intros b Hb. rewrite Hocc. unfold occurrences. rewrite filter_cons, filter_nil.
      rewrite decide_False; [done |]. intros [=]. congruence.
  - intros Heq b. rewrite bool_decide_eq_false_2 in Hocc by (intros ?; congruence).
    by rewrite Hocc.
Qed.

Lemma before_update_calls_witness :
  context_map example_mounted = Some example_map ∧
  componentWillReceiveProps diff_raises moved_props example_mounted
  = (Ret tt, moved) ∧
  ∃ cs, calls moved = calls example_mounted ++ cs ∧
    ∀ type, type ∈ types →
      (before moved_props ≠ before (props (this example_mounted)) →
       occurrences (MoveLayer (buildLayerId (this example_mounted) type)
                      (before moved_props)) cs = 1 ∧
       ∀ b, b ≠ before moved_props →
            occurrences (MoveLayer (buildLayerId (this example_mounted) type) b) cs
            = 0) ∧
      (before moved_props = before (props (this example_mounted)) →
       ∀ b, occurrences (MoveLayer (buildLayerId (this example_mounted) type) b) cs
            = 0).
Proof.
  assert (context_map example_mounted = Some example_map) as H1
    by (vm_compute; reflexivity).
  assert (componentWillReceiveProps diff_raises moved_props example_mounted
          = (Ret tt, moved)) as H2
    by (vm_compute; reflexivity).
  split; [exact H1 |]. split; [exact H2 |].
  exact (before_update_calls diff_raises moved_props example_mounted moved
           example_map H1 H2).
Defined.

Lemma NoDup_eventToHandler : NoDup eventToHandler.
Proof. apply (bool_decide_unpack _). vm_compute. reflexivity. Qed.

Lemma eventToHandler_events event suffix event' suffix' :
  (event, suffix) ∈ eventToHandler → (event', suffix') ∈ eventToHandler →
  event' = event → suffix' = suffix.
Proof.
  assert (Forall (λ p, Forall (λ q, q.1 = p.1 → q.2 = p.2) eventToHandler)
                 eventToHandler) as H
    by (apply (bool_decide_unpack _); vm_compute; reflexivity).
  intros Hp Hq. rewrite Forall_forall in H. specialize (H _ Hp).
  rewrite Forall_forall in H. apply (H _ Hq).
Qed.

(** The handler step of a round, counted: per event, the old handler is
    unsubscribed once and the new one subscribed once when the two
    references differ, and nothing is issued when they are the same. *)
Lemma handler_calls_occurrences cur next type layerId event suffix h :
  (event, suffix) ∈ eventToHandler →
  occurrences (Off event layerId h) (handler_calls cur next type layerId)
  = (if bool_decide (handlers cur !! (toCamelCase type +:+ suffix) = Some h ∧
                     handlers next !! (toCamelCase type +:+ suffix) ≠ Some h)
     then 1 else 0) ∧
  occurrences (On event layerId h) (handler_calls cur next type layerId)
  = (if bool_decide (handlers next !! (toCamelCase type +:+ suffix) = Some h ∧
                     handlers cur !! (toCamelCase type +:+ suffix) ≠ Some h)
     then 1 else 0).
Proof.
  intros Hev. unfold handler_calls.
  assert (∀ c, (∃ h', c = Off event layerId h' ∨ c = On event layerId h') →
    ∀ y, y ∈ eventToHandler → y ≠ (event, suffix) →
    occurrences c
      (let '(event0, suffix0) := y in
       if bool_decide (handlers next !! (toCamelCase type +:+ suffix0)
                       ≠ handlers cur !! (toCamelCase type +:+ suffix0))
       then match handlers cur !! (toCamelCase type +:+ suffix0) with
            | Some h0 => [Off event0 layerId h0]
            | None => []
            end
            ++ match handlers next !! (toCamelCase type +:+ suffix0) with
               | Some h0 => [On event0 layerId h0]
               | None => []
               end
       else []) = 0) as Hother.
  { intros c Hc [event' suffix'] Hy Hne.
    assert (event' ≠ event) as Hevent.
    { intros ->. apply Hne. f_equal. by eapply eventToHandler_events. }
    apply (occurrences_none
             (λ c', match c' with
                    | On e _ _ | Off e _ _ => e = event'
                    | _ => False
                    end)).
    - destruct (bool_decide _); [| done]. apply Forall_app. split.
      + destruct (handlers cur !! _); by repeat constructor.
      + destruct (handlers next !! _); by repeat constructor.
    - destruct Hc as [h' [-> | ->]]; simpl; congruence. }
  rewrite !(occurrences_bind_one eventToHandler _ (event, suffix))
    by (apply NoDup_eventToHandler || done || (apply Hother; eauto)).
  cbv beta iota zeta.
  assert (∀ c c', occurrences c [c'] = if bool_decide (c' = c) then 1 else 0)
    as Hone.
  { intros c c'. unfold occurrences. rewrite filter_cons, filter_nil.
    destruct (decide (c' = c)).
    - by rewrite bool_decide_eq_true_2.
    - by rewrite bool_decide_eq_false_2. }
  assert (∀ c, occurrences c [] = 0) as Hnil by done.
  destruct (handlers cur !! (toCamelCase type +:+ suffix)) as [a |],
           (handlers next !! (toCamelCase type +:+ suffix)) as [b |];
    destruct (bool_decide (_ ≠ _)) eqn:Hchanged;
    try apply bool_decide_eq_true_1 in Hchanged;
    try (apply bool_decide_eq_false_1, dec_stable in Hchanged);
    rewrite ?occurrences_app, ?Hone, ?Hnil;
    (split; apply eq_sym;
     repeat match goal with
            | |- context [bool_decide ?P] =>
                destruct (decide P);
                [rewrite (bool_decide_eq_true_2 P) by done
                |rewrite (bool_decide_eq_false_2 P) by done]
            end;
     first
       [ reflexivity
       | exfalso;
         repeat match goal with
                | e : @eq call _ _ |- _ =>
                    first [discriminate e | injection e as e]
                | H : _ ∧ _ |- _ => destruct H
                end;
         first
           [ congruence
           | match goal with
             | n : ¬ (_ ∧ _) |- _ => apply n; split; congruence
             end ] ]).
Qed.

(** An update on a live map that returns normally, for a layer type and a
    mouse event: the handler held so far is unsubscribed from the layer id
    of the type exactly once if the next props hold another handler or none
    for that event, and the next handler is subscribed exactly once if the
    props so far hold another or none.  A handler whose reference is
    unchanged is neither unsubscribed nor subscribed. *)
Theorem handler_update_calls
    (du : option obj → option obj → outcome obj)
    (next : Props) (s s' : state) (m : MapboxMap) (type event suffix : string) :
  context_map s = Some m →
  type ∈ types →
  (event, suffix) ∈ eventToHandler →
  componentWillReceiveProps du next s = (Ret tt, s') →
  ∃ cs, calls s' = calls s ++ cs ∧
    ∀ h,
      let old := handlers (props (this s)) !! (toCamelCase type +:+ suffix) in
      let new := handlers next !! (toCamelCase type +:+ suffix) in
      (old = Some h ∧ new ≠ Some h →
       occurrences (Off event (buildLayerId (this s) type) h) cs = 1) ∧
      (¬ (old = Some h ∧ new ≠ Some h) →
       occurrences (Off event (buildLayerId (this s) type) h) cs = 0) ∧
      (new = Some h ∧ old ≠ Some h →
       occurrences (On event (buildLayerId (this s) type) h) cs = 1) ∧
      (¬ (new = Some h ∧ old ≠ Some h) →
       occurrences (On event (buildLayerId (this s) type) h) cs = 0).
Proof.
  intros Hm Htype Hev Hrun.
  destruct (receiveProps_Ret du next s m s' Hm Hrun) as (Hcalls & _).
  eexists. split; [exact Hcalls |]. intros h. cbv zeta.
  assert (∀ c, (c = Off event (buildLayerId (this s) type) h ∨
                c = On event (buildLayerId (this s) type) h) →
               occurrences c (update_calls du (this s) next)
               = occurrences c (handler_calls (props (this s)) next type
                                  (buildLayerId (this s) type))) as Hocc.
  { intros c Hc.
    rewrite (update_calls_occurrences _ _ _ type) by (by destruct Hc as [-> | ->]).
    unfold round_calls. rewrite !occurrences_app.
    rewrite (occurrences_method "setFilter" _ (filter_calls _ _ _))
      by (apply filter_calls_method || by destruct Hc as [-> | ->]).
    rewrite (occurrences_method "setPaintProperty" _ (paint_calls _ _))
      by (apply paint_calls_method || by destruct Hc as [-> | ->]).
    rewrite (occurrences_method "setLayoutProperty" _ (layout_calls _ _))
      by (apply layout_calls_method || by destruct Hc as [-> | ->]).
    rewrite (occurrences_method "moveLayer" _ (move_calls _ _ _))
      by (apply move_calls_method || by destruct Hc as [-> | ->]).
    by rewrite !Nat.add_0_l, !Nat.add_0_r. }
  rewrite !Hocc by auto.
  destruct (handler_calls_occurrences (props (this s)) next type
              (buildLayerId (this s) type) event suffix h Hev) as [-> ->].
  repeat split; intros H.
  - by rewrite bool_decide_eq_true_2.
  - by rewrite bool_decide_eq_false_2.
  - by rewrite bool_decide_eq_true_2.
  - by rewrite bool_decide_eq_false_2.
Qed.

Lemma handler_update_calls_witness :
  context_map example_mounted = Some example_map ∧
  "line" ∈ types ∧
  ("click", "OnClick") ∈ eventToHandler ∧
  componentWillReceiveProps diff_raises rehandled_props example_mounted
  = (Ret tt, rehandled) ∧
  ∃ cs, calls rehandled = calls example_mounted ++ cs ∧
    ∀ h,
      let old := handlers (props (this example_mounted))
                 !! (toCamelCase "line" +:+ "OnClick") in
      let new := handlers rehandled_props !! (toCamelCase "line" +:+ "OnClick") in
      (old = Some h ∧ new ≠ Some h →
       occurrences (Off "click" (buildLayerId (this example_mounted) "line") h) cs = 1) ∧
      (¬ (old = Some h ∧ new ≠ Some h) →
       occurrences (Off "click" (buildLayerId (this example_mounted) "line") h) cs = 0) ∧
      (new = Some h ∧ old ≠ Some h →
       occurrences (On "click" (buildLayerId (this example_mounted) "line") h) cs = 1) ∧
      (¬ (new = Some h ∧ old ≠ Some h) →
       occurrences (On "click" (buildLayerId (this example_mounted) "line") h) cs = 0).
Proof.
  assert (context_map example_mounted = Some example_map) as H1
    by (vm_compute; reflexivity).
  assert ("line" ∈ types) as H2
    by (apply (bool_decide_unpack _); vm_compute; reflexivity).
  assert (("click", "OnClick") ∈ eventToHandler) as H3
    by (apply (bool_decide_unpack _); vm_compute; reflexivity).
  assert (componentWillReceiveProps diff_raises rehandled_props example_mounted
          = (Ret tt, rehandled)) as H4
    by (vm_compute; reflexivity).
  split; [exact H1 |]. split; [exact H2 |]. split; [exact H3 |]. split; [exact H4 |].
  exact (handler_update_calls diff_raises rehandled_props example_mounted rehandled
           example_map "line" "click" "OnClick" H1 H2 H3 H4).
Defined.

(** The two commands of that example, in the order they are issued: the
    old handler goes before the new one comes. *)
Example rehandled_calls :
  calls rehandled
  = calls example_mounted
    ++ [Off "click" "g-line" (HandlerRef 1); On "click" "g-line" (HandlerRef 2)].
Proof. vm_compute. reflexivity. Qed.

(** ** The source descriptor across updates *)

(** An update on a live map that returns normally leaves [this.props] to
    the framework and refreshes [this.source] exactly when the [data]
    reference changed; [setData] is issued, on the id of the binding and
    with the new payload, in that case only.  A change of [sourceOptions]
    alone reaches neither [this.source] nor the map. *)
Theorem update_source
    (du : option obj → option obj → outcome obj)
    (next : Props) (s s' : state) (m : MapboxMap) :
  context_map s = Some m →
  componentWillReceiveProps du next s = (Ret tt, s') →
  props (this s') = props (this s) ∧
  (data next = data (props (this s)) → source (this s') = source (this s)) ∧
  (data next ≠ data (props (this s)) →
   source (this s') = sourceDescriptor (sourceOptions next) (data next)) ∧
  ∃ cs, calls s' = calls s ++ cs ∧
    ∀ i d, SetData i d ∈ cs ↔
           data next ≠ data (props (this s)) ∧ i = id (this s) ∧ d = data next.
Proof.
  intros Hm Hrun.
  destruct (receiveProps_Ret du next s m s' Hm Hrun)
    as (Hcalls & _ & Hprops & _ & _ & Hsource).
  split; [done |].
  split; [intros Hd; by rewrite Hsource, bool_decide_eq_false_2 by (by intros ?) |].
  split; [intros Hd; by rewrite Hsource, bool_decide_eq_true_2 |].
  eexists. split; [exact Hcalls |]. intros i d.
  unfold update_calls. rewrite elem_of_app. split.
  - intros [Hin | Hin].
    + destruct (decide (data next = data (props (this s)))) as [Hd | Hd].
      * rewrite bool_decide_eq_false_2 in Hin by (by intros ?).
        by apply elem_of_nil in Hin.
      * rewrite bool_decide_eq_true_2 in Hin by done.
        by apply list_elem_of_singleton in Hin as [= -> ->].
    + apply list_elem_of_bind in Hin as (type & Hin & _).
      pose proof (round_calls_layer_command du (this s) next
                    (filter_changed (props (this s)) next) type) as HF.
      rewrite Forall_forall in HF. by apply HF in Hin.
  - intros (Hd & -> & ->). left. rewrite bool_decide_eq_true_2 by done. by left.
Qed.

Lemma update_source_witness :
  context_map example_mounted = Some example_map ∧
  componentWillReceiveProps diff_raises new_data_props example_mounted
  = (Ret tt, redated) ∧
  props (this redated) = props (this example_mounted) ∧
  (data new_data_props = data (props (this example_mounted)) →
   source (this redated) = source (this example_mounted)) ∧
  (data new_data_props ≠ data (props (this example_mounted)) →
   source (this redated)
   = sourceDescriptor (sourceOptions new_data_props) (data new_data_props)) ∧
  ∃ cs, calls redated = calls example_mounted ++ cs ∧
    ∀ i d, SetData i d ∈ cs ↔
           data new_data_props ≠ data (props (this example_mounted)) ∧
           i = id (this example_mounted) ∧ d = data new_data_props.
Proof.
  assert (context_map example_mounted = Some example_map) as H1
    by (vm_compute; reflexivity).
  assert (componentWillReceiveProps diff_raises new_data_props example_mounted
          = (Ret tt, redated)) as H2
    by (vm_compute; reflexivity).
  split; [exact H1 |]. split; [exact H2 |].
  exact (update_source diff_raises new_data_props example_mounted redated
           example_map H1 H2).
Defined.

(** ** When an update returns *)

Lemma diffable_diffed du old new :
  diffable old new → ∃ d, diffed du old new = Ret d.
Proof.
  unfold diffed, isEqual. intros [-> | [[obj1 ->] [obj2 ->]]].
  - exists ∅. by rewrite bool_decide_eq_true_2.
  - destruct (bool_decide _); eauto.
Qed.

Lemma update_loop_run du t next changed s :
  is_Some (context_map s) →
  (∀ type, type ∈ types →
     diffable (paints (props t) !! (toCamelCase type +:+ "Paint"))
              (paints next !! (toCamelCase type +:+ "Paint")) ∧
     diffable (layouts (props t) !! (toCamelCase type +:+ "Layout"))
              (layouts next !! (toCamelCase type +:+ "Layout"))) →
  forEach types (updateLayer du t next changed) s
  = (Ret tt, evolve s [] (type ← types; round_calls du t next changed type)).
Proof.
  intros Hs Hdiff. apply forEach_run; [| done].
  intros type s0 Htype Hs0.
  destruct (Hdiff type Htype) as [Hp Hl].
  apply (diffable_diffed du) in Hp as [dp Hp]. apply (diffable_diffed du) in Hl as [dl Hl].
  pose proof (updateLayer_run du t next changed type s0 Hs0) as H.
  by rewrite Hp, Hl in H.
Qed.

(** An update returns normally on a live map as soon as [setData] has a
    source to go to (the payload is unchanged or the source is registered)
    and every paint and layout prop of the five types is either unchanged
    or an object on both sides. *)
Theorem update_returns
    (du : option obj → option obj → outcome obj)
    (next : Props) (s : state) (m : MapboxMap) :
  context_map s = Some m →
  (data next = data (props (this s)) ∨ is_Some (getSource m (id (this s)))) →
  (∀ type, type ∈ types →
     diffable (paints (props (this s)) !! (toCamelCase type +:+ "Paint"))
              (paints next !! (toCamelCase type +:+ "Paint")) ∧
     diffable (layouts (props (this s)) !! (toCamelCase type +:+ "Layout"))
              (layouts next !! (toCamelCase type +:+ "Layout"))) →
  ∃ s', componentWillReceiveProps du next s = (Ret tt, s').
Proof.
  intros Hm Hsrc Hdiff.
  destruct (decide (data next = data (props (this s)))) as [Hd | Hd].
  - rewrite receiveProps_same_data by done.
    rewrite update_loop_run; [eauto | by rewrite Hm | done].
  - destruct Hsrc as [? | [src Hsrc]]; [done |].
    rewrite (receiveProps_new_data_state du next s m src Hd Hm Hsrc).
    rewrite update_loop_run; [eauto | | done].
    cbn [set_source snd context_map evolve]. by rewrite Hm.
Qed.

Lemma update_returns_witness :
  context_map example_mounted = Some example_map ∧
  (data white_props = data (props (this example_mounted)) ∨
   is_Some (getSource example_map (id (this example_mounted)))) ∧
  (∀ type, type ∈ types →
     diffable (paints (props (this example_mounted)) !! (toCamelCase type +:+ "Paint"))
              (paints white_props !! (toCamelCase type +:+ "Paint")) ∧
     diffable (layouts (props (this example_mounted)) !! (toCamelCase type +:+ "Layout"))
              (layouts white_props !! (toCamelCase type +:+ "Layout"))) ∧
  ∃ s', componentWillReceiveProps diff_raises white_props example_mounted = (Ret tt, s').
Proof.
  assert (context_map example_mounted = Some example_map) as H1
    by (vm_compute; reflexivity).
  assert (data white_props = data (props (this example_mounted)) ∨
          is_Some (getSource example_map (id (this example_mounted)))) as H2
    by (left; vm_compute; reflexivity).
  assert (∀ type, type ∈ types →
     diffable (paints (props (this example_mounted)) !! (toCamelCase type +:+ "Paint"))
              (paints white_props !! (toCamelCase type +:+ "Paint")) ∧
     diffable (layouts (props (this example_mounted)) !! (toCamelCase type +:+ "Layout"))
              (layouts white_props !! (toCamelCase type +:+ "Layout"))) as H3.
  { assert (props (this example_mounted) = example_props) as ->
      by (vm_compute; reflexivity).
    intros type Htype.
    assert (type = "symbol" ∨ type = "line" ∨ type = "fill" ∨
            type = "fill-extrusion" ∨ type = "circle") as Hcases.
    { unfold types in Htype. rewrite !elem_of_cons, elem_of_nil in Htype. tauto. }
    destruct Hcases as [-> | [-> | [-> | [-> | ->]]]]; split;
      first [ left; vm_compute; reflexivity
            | right; split; vm_compute; eexists; reflexivity ]. }
  split; [exact H1 |]. split; [exact H2 |]. split; [exact H3 |].
  exact (update_returns diff_raises white_props example_mounted example_map H1 H2 H3).
Defined.

(** ** Updates that change nothing the binding looks at *)





(** ** What holds for as long as the binding is mounted *)

(** From mount on, through every update that returns and every style
    change the binding is notified of: the id is the one the constructor
    chose (an [id] prop that changes later is not followed), the payload
    of [this.source] is the [data] of the current props, the source is
    registered on the map, and [layerIds] holds the five derived ids and
    nothing else. *)
Theorem lifecycle_invariant
    (du : option obj → option obj → outcome obj)
    (p : Props) (uid : string) (s : state) :
  reachable du p uid s →
  id (this s) = id (new_GeoJSONLayer p uid) ∧
  source_data (source (this s)) = data (props (this s)) ∧
  (∃ m, context_map s = Some m ∧ is_Some (getSource m (id (this s)))) ∧
  ∀ lId, lId ∈ layerIds (this s) ↔ lId ∈ buildLayerId (this s) <$> types.
Proof.
  induction 1 as [m cs s Hrun | s next s' Hreach IH Hrun | s m' s' Hreach IH Hrun].
  - set (s0 := {| this := new_GeoJSONLayer p uid; context_map := Some m;
                  calls := cs |}) in *.
    destruct (componentWillMount_map s0 m eq_refl)
      as (s1 & m1 & Hrun1 & Hm1 & Hthis & _ & Hsrc & _).
    rewrite Hrun1 in Hrun. injection Hrun as <-.
    rewrite Hthis. cbn [this evolve id source props layerIds s0].
    split; [done |]. split; [done |]. split; [| done].
    exists m1. split; [done |].
    unfold getSource. rewrite Hsrc. cbn [this s0]. by rewrite lookup_insert_eq.
  - destruct IH as (Hid & Hdata & (m & Hm & Hreg) & Hids).
    apply bind_Ret_inv in Hrun as ([] & s1 & Hrun1 & Hset).
    injection Hset as <-.
    destruct (receiveProps_Ret du next s m s1 Hm Hrun1)
      as (_ & _ & _ & Hid1 & Hids1 & Hsource).
    pose proof (receiveProps_evolves du next s) as Hev.
    rewrite Hrun1 in Hev. destruct Hev as (_ & _ & cs & HF & _ & Hmap).
    cbn [snd] in Hmap. rewrite Hm in Hmap.
    cbn [this id source props layerIds context_map].
    split; [congruence |]. split; [| split].
    + rewrite Hsource. destruct (decide (data next = data (props (this s)))) as [Hd | Hd].
      * rewrite bool_decide_eq_false_2 by (by intros ?). congruence.
      * by rewrite bool_decide_eq_true_2.
    + eexists. split; [exact Hmap |].
      destruct (update_call_frame (this s) cs m HF) as [Hdom _].
      unfold getSource in *. rewrite Hid1.
      apply elem_of_dom. rewrite Hdom. by apply elem_of_dom.
    + intros lId. rewrite Hids1, Hids. unfold buildLayerId. cbn [id]. by rewrite Hid1.
  - destruct IH as (Hid & Hdata & _ & Hids).
    destruct (onStyleDataChange_live
                {| this := this s; context_map := Some m'; calls := calls s |}
                m' eq_refl)
      as (s1 & m1 & Hrun1 & Hm1 & Hprops & Hid1 & Hsrc & Hreg & Hids1).
    rewrite Hrun1 in Hrun. injection Hrun as <-.
    cbn [this] in *.
    split; [congruence |]. split; [congruence |]. split.
    + exists m1. split; [done |]. by rewrite Hid1.
    + assert (buildLayerId (this s1) <$> types = buildLayerId (this s) <$> types)
        as Hbuild by (unfold buildLayerId; by rewrite Hid1).
      intros lId. rewrite Hbuild.
      destruct Hids1 as [-> | ->]; [apply Hids |].
      rewrite elem_of_app, Hids. tauto.
Qed.

Lemma lifecycle_invariant_witness :
  reachable diff_raises example_props "1" example_rebound ∧
  id (this example_rebound) = id (new_GeoJSONLayer example_props "1") ∧
  source_data (source (this example_rebound)) = data (props (this example_rebound)) ∧
  (∃ m, context_map example_rebound = Some m ∧
        is_Some (getSource m (id (this example_rebound)))) ∧
  ∀ lId, lId ∈ layerIds (this example_rebound)
         ↔ lId ∈ buildLayerId (this example_rebound) <$> types.
Proof.
  assert (componentWillMount {| this := new_GeoJSONLayer example_props "1";
                                context_map := Some empty_map; calls := [] |}
          = (Ret tt, example_mounted)) as H1
    by (vm_compute; reflexivity).
  assert (onStyleDataChange {| this := this example_mounted;
                               context_map := Some empty_map;
                               calls := calls example_mounted |}
          = (Ret tt, example_rebound)) as H2
    by (vm_compute; reflexivity).
  assert (reachable diff_raises example_props "1" example_rebound) as H
    by exact (reach_style diff_raises example_props "1" example_mounted empty_map
                example_rebound
                (reach_mount diff_raises example_props "1" empty_map []
                   example_mounted H1)
                H2).
  split; [exact H |].
  exact (lifecycle_invariant diff_raises example_props "1" example_rebound H).
Defined.

(** ** Subscriptions made and undone *)

Lemma on_calls_elem t type c :
  c ∈ on_calls t type ↔
  ∃ event suffix h,
    (event, suffix) ∈ eventToHandler ∧
    handlers (props t) !! (toCamelCase type +:+ suffix) = Some h ∧
    c = On event (buildLayerId t type) h.
Proof.
  unfold on_calls. rewrite list_elem_of_bind. split.
  - intros ([event suffix] & Hin & He).
    destruct (handlers (props t) !! _) as [h |] eqn:Hh.
    + apply list_elem_of_singleton in Hin as ->. eauto 10.
    + by apply elem_of_nil in Hin.
  - intros (event & suffix & h & He & Hh & ->).
    exists (event, suffix). rewrite Hh. split; [by left | done].
Qed.

Lemma off_calls_elem t c :
  c ∈ off_calls t ↔
  ∃ type event suffix h,
    type ∈ types ∧ (event, suffix) ∈ eventToHandler ∧
    handlers (props t) !! (toCamelCase type +:+ suffix) = Some h ∧
    c = Off event (buildLayerId t type) h.
Proof.
  unfold off_calls. rewrite list_elem_of_bind. split.
  - intros (type & Hin & Htype).
    apply list_elem_of_bind in Hin as ([event suffix] & Hin & He).
    destruct (handlers (props t) !! _) as [h |] eqn:Hh.
    + apply list_elem_of_singleton in Hin as ->. eauto 10.
    + by apply elem_of_nil in Hin.
  - intros (type & event & suffix & h & Htype & He & Hh & ->).
    exists type. split; [| done].
    apply list_elem_of_bind. exists (event, suffix). rewrite Hh.
    split; [by left | done].
Qed.

Lemma componentWillUnmount_run s m :
  context_map s = Some m → getStyle m = true →
  componentWillUnmount s
  = (Ret tt, evolve s [] (OffStyleData :: unbind_calls (this s) m)).
Proof.
  intros Hm Hstyle.
  unfold componentWillUnmount. erewrite bind_run; [| reflexivity].
  rewrite Hm, Hstyle. simpl.
  erewrite bind_run; [| apply map_call_run; by rewrite Hm].
  erewrite unbind_run; [| simpl; by rewrite Hm].
  by rewrite evolve_evolve, this_evolve_nil.
Qed.

(** Unmount undoes the subscriptions of mount: when the props and the id
    are those the binding was mounted with, unmount (map and style there)
    unsubscribes exactly the triples of event, layer id and handler that
    mount subscribed, and mount subscribes none but the declared handlers
    of the five types on their derived ids. *)
Theorem unmount_mirrors_mount (s s2 : state) (m m2 : MapboxMap) :
  context_map s = Some m →
  context_map s2 = Some m2 → getStyle m2 = true →
  props (this s2) = props (this s) → id (this s2) = id (this s) →
  ∃ s1 s3 cs1 cs3,
    componentWillMount s = (Ret tt, s1) ∧ calls s1 = calls s ++ cs1 ∧
    componentWillUnmount s2 = (Ret tt, s3) ∧ calls s3 = calls s2 ++ cs3 ∧
    ∀ event layerId h,
      (On event layerId h ∈ cs1 ↔ Off event layerId h ∈ cs3) ∧
      (On event layerId h ∈ cs1 ↔
       ∃ type suffix,
         type ∈ types ∧ (event, suffix) ∈ eventToHandler ∧
         layerId = buildLayerId (this s) type ∧
         handlers (props (this s)) !! (toCamelCase type +:+ suffix) = Some h).
Proof.
  intros Hm Hm2 Hstyle Hprops Hid.
  eexists _, _, _, _.
  split; [apply componentWillMount_run; by rewrite Hm |].
  split; [reflexivity |].
  split; [by apply componentWillUnmount_run |].
  split; [reflexivity |].
  intros event layerId h.
  assert (On event layerId h
            ∈ [AddSource (id (this s)) (source (this s))]
              ++ (type ← types; layer_calls (this s) type) ++ [OnStyleData]
          ↔ ∃ type suffix,
              type ∈ types ∧ (event, suffix) ∈ eventToHandler ∧
              layerId = buildLayerId (this s) type ∧
              handlers (props (this s)) !! (toCamelCase type +:+ suffix) = Some h)
    as Hon.
  { rewrite !elem_of_app, list_elem_of_bind. split.
    - intros [Hin | [(type & Hin & Htype) | Hin]].
      + by apply list_elem_of_singleton in Hin.
      + unfold layer_calls in Hin. apply elem_of_cons in Hin as [Hin | Hin]; [done |].
        apply on_calls_elem in Hin as (event' & suffix & h' & He & Hh & [= -> -> ->]).
        eauto 10.
      + by apply list_elem_of_singleton in Hin.
    - intros (type & suffix & Htype & He & -> & Hh).
      right. left. exists type. split; [| done].
      unfold layer_calls. right. apply on_calls_elem. eauto 10. }
  split; [| exact Hon].
  rewrite Hon. unfold unbind_calls.
  rewrite elem_of_cons, !elem_of_app, off_calls_elem, list_elem_of_fmap.
  unfold buildLayerId. rewrite Hprops, Hid. split.
  - intros (type & suffix & Htype & He & -> & Hh).
    right. right. left. eauto 10.
  - intros [Hin | [Hin | [Hin | Hin]]].
    + done.
    + destruct (bool_decide _); [by apply list_elem_of_singleton in Hin
                                | by apply elem_of_nil in Hin].
    + destruct Hin as (type & event' & suffix & h' & Htype & He & Hh & [= -> -> ->]).
      eauto 10.
    + by destruct Hin as (lId & ? & _).
Qed.

Lemma unmount_mirrors_mount_witness :
  context_map example_initial = Some empty_map ∧
  context_map example_mounted = Some example_map ∧
  getStyle example_map = true ∧
  props (this example_mounted) = props (this example_initial) ∧
  id (this example_mounted) = id (this example_initial) ∧
  ∃ s1 s3 cs1 cs3,
    componentWillMount example_initial = (Ret tt, s1) ∧
    calls s1 = calls example_initial ++ cs1 ∧
    componentWillUnmount example_mounted = (Ret tt, s3) ∧
    calls s3 = calls example_mounted ++ cs3 ∧
    ∀ event layerId h,
      (On event layerId h ∈ cs1 ↔ Off event layerId h ∈ cs3) ∧
      (On event layerId h ∈ cs1 ↔
       ∃ type suffix,
         type ∈ types ∧ (event, suffix) ∈ eventToHandler ∧
         layerId = buildLayerId (this example_initial) type ∧
         handlers (props (this example_initial)) !! (toCamelCase type +:+ suffix)
         = Some h).
Proof.
  assert (context_map example_initial = Some empty_map) as H1 by reflexivity.
  assert (context_map example_mounted = Some example_map) as H2
    by (vm_compute; reflexivity).
  assert (getStyle example_map = true) as H3 by (vm_compute; reflexivity).
  assert (props (this example_mounted) = props (this example_initial)) as H4
    by (vm_compute; reflexivity).
  assert (id (this example_mounted) = id (this example_initial)) as H5
    by (vm_compute; reflexivity).
  split; [exact H1 |]. split; [exact H2 |]. split; [exact H3 |].
  split; [exact H4 |]. split; [exact H5 |].
  exact (unmount_mirrors_mount example_initial example_mounted empty_map example_map
           H1 H2 H3 H4 H5).
Defined.

(** ** The logs of mount and of an update *)

(** Mount on a live map issues, in this order and nothing else: one
    [addSource] with the id and the descriptor of the instance; for each
    type in the order of [types], one [addLayer] with the descriptor of
    that type and the [before] prop, followed by one subscription per
    declared handler of that type, event by event; and the subscription to
    [styledata]. *)
Theorem mount_calls (s : state) (m : MapboxMap) :
  context_map s = Some m →
  ∃ s', componentWillMount s = (Ret tt, s') ∧
        calls s' = calls s
                   ++ [AddSource (id (this s)) (source (this s))]
                   ++ (type ← types;
                       AddLayer (created_layer (this s) type) (before (props (this s)))
                       :: on_calls (this s) type)
                   ++ [OnStyleData].
Proof.
  intros Hm. eexists. split; [apply componentWillMount_run; by rewrite Hm |].
  reflexivity.
Qed.

Lemma mount_calls_witness :
  context_map example_initial = Some empty_map ∧
  ∃ s', componentWillMount example_initial = (Ret tt, s') ∧
        calls s' = calls example_initial
                   ++ [AddSource (id (this example_initial))
                         (source (this example_initial))]
                   ++ (type ← types;
                       AddLayer (created_layer (this example_initial) type)
                         (before (props (this example_initial)))
                       :: on_calls (this example_initial) type)
                   ++ [OnStyleData].
Proof.
  assert (context_map example_initial = Some empty_map) as H by reflexivity.
  split; [exact H |].
  exact (mount_calls example_initial empty_map H).
Defined.



(** ** A layer id taken from [layerOptions] *)

(** When [layerOptions] carries an id, every [addLayer] of mount uses that
    id in place of the derived one, while [layerIds] records the derived
    ids.  Unmount removes the ids of [layerIds] only: if the id of
    [layerOptions] is not among them, the layer mount registered under it
    is still registered after unmount. *)
Theorem layerOptions_id_outlives_unmount
    (s : state) (m : MapboxMap) (o : LayerOptions) (i : string) :
  context_map s = Some m → getStyle m = true →
  layerOptions (props (this s)) = Some o → lo_id o = Some i →
  i ∉ layerIds (this s) →
  (∀ type, type ∈ types → i ≠ buildLayerId (this s) type) →
  ∃ s1 cs s2 m2,
    componentWillMount s = (Ret tt, s1) ∧
    calls s1 = calls s ++ cs ∧
    (∀ l b, AddLayer l b ∈ cs → layer_id l = i) ∧
    layerIds (this s1) = layerIds (this s) ++ (buildLayerId (this s) <$> types) ∧
    componentWillUnmount s1 = (Ret tt, s2) ∧
    context_map s2 = Some m2 ∧
    is_Some (getLayer m2 i).
Proof.
  intros Hm Hstyle Hlo Hi Hids Hderived.
  destruct (componentWillMount_map s m Hm)
    as (s1 & m1 & Hrun1 & Hm1 & Hthis1 & Hstyle1 & _ & Hlay1).
  assert (getStyle m1 = true) as Hstyle1'
    by (unfold getStyle in Hstyle |- *; congruence).
  destruct (componentWillUnmount_map s1 m1 Hm1 Hstyle1')
    as (s2 & m2 & Hrun2 & Hm2 & _ & _ & _ & Hlay2).
  assert (∀ type, layer_id (created_layer (this s) type) = i) as Hcreated.
  { intros type. unfold created_layer, spread. rewrite Hlo. simpl. by rewrite Hi. }
  exists s1, (initialize_calls (this s) ++ [OnStyleData]), s2, m2.
  split; [done |]. split.
  { rewrite componentWillMount_run in Hrun1 by (by rewrite Hm).
    injection Hrun1 as <-. reflexivity. }
  split.
  { intros l b Hin. apply elem_of_app in Hin as [Hin | Hin].
    - apply initialize_calls_addLayer in Hin as (type & _ & -> & _). apply Hcreated.
    - by apply list_elem_of_singleton in Hin. }
  split; [by rewrite Hthis1 |].
  split; [done |]. split; [done |].
  unfold getLayer. rewrite Hlay2, Hthis1. cbn [this evolve layerIds].
  rewrite bool_decide_eq_false_2.
  - rewrite Hlay1, <- (Hcreated "symbol").
    apply (adds_only_added _ _ _ (before (props (this s))));
      [apply initialize_calls_adds_only |].
    apply initialize_calls_addLayer. exists "symbol". split; [by left | done].
  - rewrite elem_of_app. intros [Hin | Hin]; [done |].
    apply list_elem_of_fmap in Hin as (type & -> & Htype). by apply (Hderived type).
Qed.

Lemma layerOptions_id_outlives_unmount_witness :
  context_map named_initial = Some empty_map ∧
  getStyle empty_map = true ∧
  layerOptions (props (this named_initial)) = Some named_options ∧
  lo_id named_options = Some "roads" ∧
  ("roads" ∉ layerIds (this named_initial)) ∧
  (∀ type, type ∈ types → "roads" ≠ buildLayerId (this named_initial) type) ∧
  ∃ s1 cs s2 m2,
    componentWillMount named_initial = (Ret tt, s1) ∧
    calls s1 = calls named_initial ++ cs ∧
    (∀ l b, AddLayer l b ∈ cs → layer_id l = "roads") ∧
    layerIds (this s1)
    = layerIds (this named_initial) ++ (buildLayerId (this named_initial) <$> types) ∧
    componentWillUnmount s1 = (Ret tt, s2) ∧
    context_map s2 = Some m2 ∧
    is_Some (getLayer m2 "roads").
Proof.
  assert (context_map named_initial = Some empty_map) as H1 by reflexivity.
  assert (getStyle empty_map = true) as H2 by reflexivity.
  assert (layerOptions (props (this named_initial)) = Some named_options) as H3
    by reflexivity.
  assert (lo_id named_options = Some "roads") as H4 by reflexivity.
  assert ("roads" ∉ layerIds (this named_initial)) as H5
    by (apply (bool_decide_unpack _); vm_compute; reflexivity).
  assert (∀ type, type ∈ types → "roads" ≠ buildLayerId (this named_initial) type)
    as H6.
  { assert (Forall (λ type, "roads" ≠ buildLayerId (this named_initial) type) types)
      as HF by (apply (bool_decide_unpack _); vm_compute; reflexivity).
    intros type. by apply (proj1 (Forall_forall _ _) HF). }
  split; [exact H1 |]. split; [exact H2 |]. split; [exact H3 |].
  split; [exact H4 |]. split; [exact H5 |]. split; [exact H6 |].
  exact (layerOptions_id_outlives_unmount named_initial empty_map named_options "roads"
           H1 H2 H3 H4 H5 H6).
Defined.
